(** * The Book Catalog REST API of part-4/app.py

    A shallow embedding of the five JSON routes of [part-4/app.py]
    ([get_books], [create_book], [update_book], [delete_book],
    [search_books]) and of the pieces of Flask, Werkzeug and
    Flask-SQLAlchemy they call, followed by the properties of the
    catalog that hold, and the requests at which the handlers leave
    the documented contract.

    Conventions of the embedding.
    - The [book] table is a list of rows in storage order (rowid order);
      a handler takes the table and returns its outcome, and for the
      three mutating routes the table after the request as well.
    - A request body is sent as [application/json]. When it parses to
      an object, its [title], [author] and [isbn] members are strings
      or null and its [year] member is an integer or null, as the
      columns of [Book] declare them; other members are ignored.
    - Texts (query parameters, titles, authors, isbns) are ASCII
      strings, one [ascii] per character.
    - Integers a client sends are in the range of SQLite's 64-bit
      INTEGER.
    - A handler either returns a JSON envelope with a status, or the
      framework aborts the request with an HTTP error of its own, or an
      exception escapes the handler (Flask then answers 500). *)

From Stdlib Require Import List ZArith Lia Bool String Ascii.
From Stdlib Require Import Sorting.Sorted Sorting.Permutation.
Import ListNotations.

Local Open Scope string_scope.
Local Open Scope list_scope.
Local Open Scope Z_scope.

(** ** Python values used by the handlers *)

(** Exceptions that can escape a handler. *)
Inductive exn : Type :=
| ValueError        (* int('abc') *)
| AttributeError    (* 'function' object has no attribute 'desc' *)
| ArgumentError     (* sqlalchemy.exc.ArgumentError: order_by() of a non-column *)
| IntegrityError.   (* sqlalchemy.exc.IntegrityError raised by commit() *)

(** [datetime.datetime]: the naive UTC time [datetime.utcnow()] returns. *)
Record datetime : Type := mkdatetime {
  dt_year : Z; dt_month : Z; dt_day : Z;
  dt_hour : Z; dt_minute : Z; dt_second : Z; dt_microsecond : Z
}.

Definition digit (z : Z) : ascii := ascii_of_nat (48 + Z.to_nat (z mod 10)).

(** The [w] low decimal digits of [z], zero padded ("%0wd" for a value
    below [10^w], which the fields of a datetime are). *)
Fixpoint zfill (w : nat) (z : Z) : string :=
  match w with
  | O => ""
  | S w' => (zfill w' (z / 10) ++ String (digit z) "")%string
  end.

Definition iso_date (d : datetime) : string :=
  (zfill 4 (dt_year d) ++ "-" ++ zfill 2 (dt_month d) ++ "-" ++ zfill 2 (dt_day d))%string.

Definition iso_time (d : datetime) : string :=
  (zfill 2 (dt_hour d) ++ ":" ++ zfill 2 (dt_minute d) ++ ":" ++ zfill 2 (dt_second d))%string.

(** [datetime.isoformat()]: the microseconds are printed only when they
    are not zero. *)
Definition isoformat (d : datetime) : string :=
  (iso_date d ++ "T" ++ iso_time d ++
   (if (dt_microsecond d =? 0)%Z then "" else "." ++ zfill 6 (dt_microsecond d)))%string.

(** The text SQLAlchemy stores in SQLite for a [DateTime] column. *)
Definition storage_format (d : datetime) : string :=
  (iso_date d ++ " " ++ iso_time d ++ "." ++ zfill 6 (dt_microsecond d))%string.

(** *** The JSON body of a request *)

(** One key of the body: not in the object, present with [null], or
    present with a value. *)
Inductive entry (A : Type) : Type :=
| Absent
| Null
| Value (a : A).
Arguments Absent {A}.
Arguments Null {A}.
Arguments Value {A} a.

(** [data.get(key)] *)
Definition get {A : Type} (e : entry A) : option A :=
  match e with
  | Value a => Some a
  | Absent | Null => None
  end.

(** [key in data] *)
Definition contains {A : Type} (e : entry A) : bool :=
  match e with
  | Absent => false
  | Null | Value _ => true
  end.

(** [data[key]], evaluated by the handlers only where the key is known
    to be present (after [data.get(key)] was truthy, or after
    [key in data]), so that no KeyError arises. *)
Definition getitem {A : Type} (e : entry A) : option A := get e.

(** Truth value of a string or [None]. *)
Definition truthy (v : option string) : bool :=
  match v with
  | Some s => negb (s =? "")%string
  | None => false
  end.

(** The dict [request.get_json()] returns for a JSON object.
    [other_keys] are the keys besides the four the handlers look at. *)
Record dict : Type := mkdict {
  d_title : entry string;
  d_author : entry string;
  d_year : entry Z;
  d_isbn : entry string;
  other_keys : list string
}.

Definition dict_is_empty (d : dict) : bool :=
  negb (contains (d_title d)) && negb (contains (d_author d)) &&
  negb (contains (d_year d)) && negb (contains (d_isbn d)) &&
  match other_keys d with [] => true | _ :: _ => false end.

(** What the client sent as body. *)
Inductive payload : Type :=
| Malformed                 (* not JSON: the parser fails *)
| JsonNull                  (* the JSON text [null] *)
| JsonObject (d : dict).

(** [request.get_json()]: [inl status] when Werkzeug aborts the request
    (BadRequest on a body that does not parse), else the parsed value,
    [None] for [null]. *)
Definition get_json (p : payload) : Z + option dict :=
  match p with
  | Malformed => inl 400
  | JsonNull => inr None
  | JsonObject d => inr (Some d)
  end.

(** [if not data]: [None] and [{}] are the falsy bodies. *)
Definition not_ (data : option dict) : bool :=
  match data with
  | None => true
  | Some d => dict_is_empty d
  end.

(** ** The model class *)

Module Book.

(** A row of the [book] table. [title] and [author] are declared
    [nullable=False]; the attribute of a Python object can still be
    [None] until [commit()] refuses it. *)
Record t : Type := mk {
  id : Z;
  title : option string;
  author : option string;
  year : option Z;
  isbn : option string;
  created_at : option datetime
}.

(** The dictionary [to_dict] builds. *)
Record json : Type := mkjson {
  j_id : Z;
  j_title : option string;
  j_author : option string;
  j_year : option Z;
  j_isbn : option string;
  j_created_at : option string
}.

Definition to_dict (self : t) : json :=
  {| j_id := id self;
     j_title := title self;
     j_author := author self;
     j_year := year self;
     j_isbn := isbn self;
     j_created_at := match created_at self with
                     | Some d => Some (isoformat d)
                     | None => None
                     end |}.

(** The six columns. *)
Inductive column : Type :=
| c_id | c_title | c_author | c_year | c_isbn | c_created_at.

End Book.

Definition table : Type := list Book.t.

(** ** Responses *)

(** The objects the handlers pass to [jsonify]. *)
Inductive envelope : Type :=
| Error (error : string)
    (* {'success': False, 'error': error} *)
| Listing (page per_page total : Z) (books : list Book.json)
    (* {'success': True, 'page', 'per_page', 'total', 'books'} *)
| Single (message : string) (book : Book.json)
    (* {'success': True, 'message', 'book'} *)
| Message (message : string)
    (* {'success': True, 'message'} *)
| Found (count : Z) (books : list Book.json).
    (* {'success': True, 'count', 'books'} *)

Definition success (e : envelope) : bool :=
  match e with
  | Error _ => false
  | _ => true
  end.

Inductive outcome : Type :=
| Response (json : envelope) (status : Z)   (* return jsonify(...), status *)
| Abort (status : Z)                        (* HTTPException of the framework *)
| Raise (e : exn).                          (* unhandled: Flask answers 500 *)

Definition status_code (o : outcome) : Z :=
  match o with
  | Response _ s => s
  | Abort s => s
  | Raise _ => 500
  end.

(** ** The storage layer: what the session does to the table *)

Definition isbn_is (s : string) (b : Book.t) : bool :=
  match Book.isbn b with
  | Some s' => (s' =? s)%string
  | None => false
  end.

Definition is_some {A : Type} (o : option A) : bool :=
  match o with Some _ => true | None => false end.

(** [Book.query.get(id)] *)
Definition query_get (tbl : table) (i : Z) : option Book.t :=
  find (fun b => Book.id b =? i) tbl.

(** [Book.query.filter_by(isbn=s).first()] *)
Definition filter_by_isbn_first (tbl : table) (s : string) : option Book.t :=
  find (isbn_is s) tbl.

(** The rowid SQLite gives to a new row of a table whose key is
    [INTEGER PRIMARY KEY]: one more than the largest in use. *)
Definition next_id (tbl : table) : Z :=
  1 + fold_right Z.max 0 (map Book.id tbl).

(** The UNIQUE constraint of [isbn]: a non-null value held by a row
    other than row [i] is refused (NULLs never collide). *)
Definition isbn_taken (tbl : table) (i : Z) (v : option string) : bool :=
  match v with
  | Some s => existsb (fun b => negb (Book.id b =? i) && isbn_is s b) tbl
  | None => false
  end.

(** The NOT NULL constraints of [title] and [author]. *)
Definition not_null (b : Book.t) : bool :=
  is_some (Book.title b) && is_some (Book.author b).

(** [db.session.add(Book(...)); db.session.commit()]: the INSERT gives
    the row its id and the default of [created_at], and fails on a
    constraint. *)
Definition add_commit (now : datetime) (tbl : table)
    (title author : option string) (year : option Z) (isbn : option string)
  : exn + Book.t * table :=
  let new_book := Book.mk (next_id tbl) title author year isbn (Some now) in
  if negb (not_null new_book) || isbn_taken tbl (Book.id new_book) isbn
  then inl IntegrityError
  else inr (new_book, tbl ++ [new_book]).

(** [db.session.commit()] after attribute assignments on the object
    loaded with key [i]: UPDATE ... WHERE id = i. The constraints are
    checked on the row as assigned; on a table that satisfies them this
    is what SQLite checks for the columns the UPDATE sets. *)
Definition update_commit (tbl : table) (i : Z) (book : Book.t) : exn + table :=
  if negb (not_null book) || isbn_taken tbl i (Book.isbn book)
  then inl IntegrityError
  else inr (map (fun b => if Book.id b =? i then book else b) tbl).

(** [db.session.delete(book); db.session.commit()]:
    DELETE ... WHERE id = i. *)
Definition delete_commit (tbl : table) (i : Z) : table :=
  filter (fun b => negb (Book.id b =? i)) tbl.

(** ** POST /api/books *)

Definition create_book (now : datetime) (body : payload) (tbl : table)
  : outcome * table :=
  match get_json body with
  | inl status => (Abort status, tbl)
  | inr data =>
    if not_ data then (Response (Error "No data provided") 400, tbl) else
    match data with
    | None => (Response (Error "No data provided") 400, tbl)   (* [None] is falsy *)
    | Some data =>
      if negb (truthy (get (d_title data))) || negb (truthy (get (d_author data)))
      then (Response (Error "Title and author are required") 400, tbl)
      else
        if truthy (get (d_isbn data)) &&
           match getitem (d_isbn data) with
           | Some s => is_some (filter_by_isbn_first tbl s)
           | None => false
           end
        then (Response (Error "ISBN already exists") 400, tbl)
        else
          match add_commit now tbl (getitem (d_title data)) (getitem (d_author data))
                           (get (d_year data)) (get (d_isbn data)) with
          | inl e => (Raise e, tbl)
          | inr (new_book, tbl') =>
            (Response (Single "Book created successfully" (Book.to_dict new_book)) 201,
             tbl')
          end
    end
  end.

(** ** PUT /api/books/<id> *)

(** The four conditional assignments of [update_book]. *)
Definition assign (book : Book.t) (data : dict) : Book.t :=
  let book :=
    if contains (d_title data)
    then Book.mk (Book.id book) (getitem (d_title data)) (Book.author book)
                 (Book.year book) (Book.isbn book) (Book.created_at book)
    else book in
  let book :=
    if contains (d_author data)
    then Book.mk (Book.id book) (Book.title book) (getitem (d_author data))
                 (Book.year book) (Book.isbn book) (Book.created_at book)
    else book in
  let book :=
    if contains (d_year data)
    then Book.mk (Book.id book) (Book.title book) (Book.author book)
                 (getitem (d_year data)) (Book.isbn book) (Book.created_at book)
    else book in
  let book :=
    if contains (d_isbn data)
    then Book.mk (Book.id book) (Book.title book) (Book.author book)
                 (Book.year book) (getitem (d_isbn data)) (Book.created_at book)
    else book in
  book.

Definition update_book (id : Z) (body : payload) (tbl : table)
  : outcome * table :=
  match query_get tbl id with
  | None => (Response (Error "Book not found") 404, tbl)
  | Some book =>
    match get_json body with
    | inl status => (Abort status, tbl)
    | inr data =>
      if not_ data then (Response (Error "No data provided") 400, tbl) else
      match data with
      | None => (Response (Error "No data provided") 400, tbl)   (* [None] is falsy *)
      | Some data =>
        let book := assign book data in
        match update_commit tbl id book with
        | inl e => (Raise e, tbl)
        | inr tbl' =>
          (Response (Single "Book updated successfully" (Book.to_dict book)) 200,
           tbl')
        end
      end
    end
  end.

(** ** DELETE /api/books/<id> *)

Definition delete_book (id : Z) (tbl : table) : outcome * table :=
  match query_get tbl id with
  | None => (Response (Error "Book not found") 404, tbl)
  | Some book =>
    (Response (Message "Book deleted successfully") 200,
     delete_commit tbl (Book.id book))
  end.

(** ** Query strings *)

(** [request.args]: the pairs of the query string, already URL-decoded. *)
Definition args : Type := list (string * string).

(** [request.args.get(key)]: the first value of the key. *)
Fixpoint args_get (a : args) (key : string) : option string :=
  match a with
  | [] => None
  | (k, v) :: a' => if (k =? key)%string then Some v else args_get a' key
  end.

(** [request.args.get(key, default)] *)
Definition args_get_default (a : args) (key default : string) : string :=
  match args_get a key with
  | Some v => v
  | None => default
  end.

(** *** [int(s)] on an ASCII string *)

Definition is_space (c : ascii) : bool :=
  let n := N_of_ascii c in
  ((9 <=? n) && (n <=? 13) || (28 <=? n) && (n <=? 32))%N.

Definition is_digit (c : ascii) : bool :=
  let n := N_of_ascii c in ((48 <=? n) && (n <=? 57))%N.

Definition digit_value (c : ascii) : Z := Z.of_N (N_of_ascii c) - 48.

Fixpoint lstrip (s : string) : string :=
  match s with
  | String c s' => if is_space c then lstrip s' else s
  | EmptyString => EmptyString
  end.

Fixpoint rstrip (s : string) : string :=
  match s with
  | String c s' =>
    match rstrip s' with
    | EmptyString => if is_space c then EmptyString else String c EmptyString
    | r => String c r
    end
  | EmptyString => EmptyString
  end.

(** Decimal digits, with single underscores allowed between digits.
    [after_digit] tells whether the previous character was a digit. *)
Fixpoint digits (acc : Z) (after_digit : bool) (s : string) : option Z :=
  match s with
  | EmptyString => if after_digit then Some acc else None
  | String c s' =>
    if is_digit c then digits (10 * acc + digit_value c) true s'
    else if (c =? "_")%char && after_digit then digits acc false s'
    else None
  end.

(** [int(s)]: [None] stands for ValueError. (The cap recent Python
    versions put on the number of digits is left out.) *)
Definition int (s : string) : option Z :=
  match rstrip (lstrip s) with
  | String "-" s' => option_map Z.opp (digits 0 false s')
  | String "+" s' => digits 0 false s'
  | s' => digits 0 false s'
  end.

(** [request.args.get(key, default, type=int)]: the default also when
    the conversion raises ValueError. *)
Definition args_get_int (a : args) (key : string) (default : Z) : Z :=
  match args_get a key with
  | Some v => match int v with
              | Some z => z
              | None => default
              end
  | None => default
  end.

(** ** The SQL of the queries *)

(** *** LIKE *)

Definition lower_char (c : ascii) : ascii :=
  let n := N_of_ascii c in
  if ((65 <=? n) && (n <=? 90))%N then ascii_of_N (n + 32) else c.

(** SQLite's [lower()], which folds the ASCII letters. *)
Fixpoint lower (s : string) : string :=
  match s with
  | EmptyString => EmptyString
  | String c s' => String (lower_char c) (lower s')
  end.

(** [s LIKE p]: [%] stands for any run of characters, [_] for any one
    character, every other character for itself. *)
Fixpoint like (p : string) : string -> bool :=
  match p with
  | EmptyString => fun s => match s with EmptyString => true | _ => false end
  | String c p' =>
    if (c =? "%")%char then
      fix any (s : string) : bool :=
        like p' s || match s with
                     | EmptyString => false
                     | String _ s' => any s'
                     end
    else if (c =? "_")%char then
      fun s => match s with
               | EmptyString => false
               | String _ s' => like p' s'
               end
    else
      fun s => match s with
               | EmptyString => false
               | String d s' => (c =? d)%char && like p' s'
               end
  end.

(** [column.ilike(pattern)], which SQLAlchemy renders for SQLite as
    [lower(column) LIKE lower(pattern)]; NULL matches nothing. *)
Definition ilike (v : option string) (pattern : string) : bool :=
  match v with
  | Some s => like (lower pattern) (lower s)
  | None => false
  end.

(** [filter_by(year=n)] *)
Definition year_is (n : Z) (b : Book.t) : bool :=
  match Book.year b with
  | Some y => y =? n
  | None => false
  end.

(** *** ORDER BY *)

(** The value SQLite holds in a column. *)
Inductive sqlvalue : Type :=
| SqlNull
| SqlInteger (z : Z)
| SqlText (s : string).

Definition of_text (o : option string) : sqlvalue :=
  match o with Some s => SqlText s | None => SqlNull end.

Definition column_value (c : Book.column) (b : Book.t) : sqlvalue :=
  match c with
  | Book.c_id => SqlInteger (Book.id b)
  | Book.c_title => of_text (Book.title b)
  | Book.c_author => of_text (Book.author b)
  | Book.c_year => match Book.year b with
                   | Some y => SqlInteger y
                   | None => SqlNull
                   end
  | Book.c_isbn => of_text (Book.isbn b)
  | Book.c_created_at => of_text (option_map storage_format (Book.created_at b))
  end.

(** SQLite's order of values: NULL first, then the integers, then the
    texts byte by byte. *)
Definition sql_le (v w : sqlvalue) : bool :=
  match v, w with
  | SqlNull, _ => true
  | SqlInteger _, SqlNull => false
  | SqlInteger x, SqlInteger y => x <=? y
  | SqlInteger _, SqlText _ => true
  | SqlText _, (SqlNull | SqlInteger _) => false
  | SqlText s, SqlText t => String.leb s t
  end.

(** What [order_by] is given: a column, or [column.desc()]. *)
Inductive order_expr : Type :=
| Asc (c : Book.column)
| Desc (c : Book.column).

(** [row_le e a b]: row [a] may come before row [b] under [e]. *)
Definition row_le (e : order_expr) (a b : Book.t) : bool :=
  match e with
  | Asc c => sql_le (column_value c a) (column_value c b)
  | Desc c => sql_le (column_value c b) (column_value c a)
  end.

Fixpoint insert_row (le : Book.t -> Book.t -> bool) (x : Book.t) (l : list Book.t)
  : list Book.t :=
  match l with
  | [] => [x]
  | y :: l' => if le x y then x :: l else y :: insert_row le x l'
  end.

(** The rows in the order of [e]; rows that compare equal keep their
    storage order. *)
Definition sort_rows (e : order_expr) (l : list Book.t) : list Book.t :=
  fold_right (insert_row (row_le e)) [] l.

(** *** LIMIT and OFFSET *)

Record Pagination : Type := mkPagination {
  items : list Book.t;
  total : Z
}.

(** [query.paginate(page=page, per_page=per_page, error_out=False)] of
    Flask-SQLAlchemy: without [error_out] a page below 1 is read as 1
    and a page size below 1 as 20; the items are the query under
    LIMIT [per_page] OFFSET [(page - 1) * per_page]; [total] counts the
    whole query. The call passes no [max_per_page]. *)
Definition paginate (query : list Book.t) (page per_page : Z) : Pagination :=
  let page := if page <? 1 then 1 else page in
  let per_page := if per_page <? 1 then 20 else per_page in
  {| items := firstn (Z.to_nat per_page)
                     (skipn (Z.to_nat ((page - 1) * per_page)) query);
     total := Z.of_nat (List.length query) |}.

(** ** GET /api/books/search *)

Definition search_books (a : args) (tbl : table) : outcome :=
  let query := tbl in
  let title := args_get a "q" in
  let query :=
    match title with
    | Some t => if truthy title
                then filter (fun b => ilike (Book.title b) ("%" ++ t ++ "%")%string) query
                else query
    | None => query
    end in
  let author := args_get a "author" in
  let query :=
    match author with
    | Some t => if truthy author
                then filter (fun b => ilike (Book.author b) ("%" ++ t ++ "%")%string) query
                else query
    | None => query
    end in
  let year := args_get a "year" in
  let query :=
    match year with
    | Some y => if truthy year
                then match int y with
                     | Some n => inr (filter (year_is n) query)
                     | None => inl ValueError
                     end
                else inr query
    | None => inr query
    end in
  match query with
  | inl e => Raise e
  | inr books =>
    Response (Found (Z.of_nat (List.length books)) (map Book.to_dict books)) 200
  end.

(** ** GET /api/books *)

Section GetBooks.

(** The names [Book] inherits from [db.Model] and [object] ([query],
    [metadata], [__init__], ...): they are defined by the libraries,
    not by app.py, and none of them is a column. *)
Variable inherited : string -> bool.

(** What [getattr(Book, name)] is. *)
Inductive attribute : Type :=
| Column (c : Book.column)
| Other.            (* the method [to_dict], or an inherited attribute *)

(** [getattr(Book, name)], [None] when [hasattr(Book, name)] is false. *)
Definition getattr (name : string) : option attribute :=
  if (name =? "id")%string then Some (Column Book.c_id)
  else if (name =? "title")%string then Some (Column Book.c_title)
  else if (name =? "author")%string then Some (Column Book.c_author)
  else if (name =? "year")%string then Some (Column Book.c_year)
  else if (name =? "isbn")%string then Some (Column Book.c_isbn)
  else if (name =? "created_at")%string then Some (Column Book.c_created_at)
  else if (name =? "to_dict")%string then Some Other
  else if inherited name then Some Other
  else None.

Definition hasattr (name : string) : bool := is_some (getattr name).

(** [column.desc()]: only a column has the method. *)
Definition desc (column : attribute) : exn + order_expr :=
  match column with
  | Column c => inr (Desc c)
  | Other => inl AttributeError
  end.

(** The value of [column] after the test of [order]. *)
Definition order_clause (column : attribute) (order : string) : exn + order_expr :=
  if (order =? "desc")%string then desc column
  else match column with
       | Column c => inr (Asc c)
       | Other => inl ArgumentError   (* raised by [query.order_by] *)
       end.

(** The query after the [# Sorting] block. *)
Definition sorted_query (sort order : string) (tbl : table) : exn + list Book.t :=
  match getattr sort with
  | Some column =>
    match order_clause column order with
    | inl e => inl e
    | inr e => inr (sort_rows e tbl)
    end
  | None => inr tbl
  end.

Definition get_books (a : args) (tbl : table) : outcome :=
  let page := args_get_int a "page" 1 in
  let per_page := args_get_int a "per_page" 5 in
  let sort := args_get_default a "sort" "id" in
  let order := args_get_default a "order" "asc" in
  match sorted_query sort order tbl with
  | inl e => Raise e
  | inr query =>
    let pagination := paginate query page per_page in
    Response (Listing page per_page (total pagination)
                      (map Book.to_dict (items pagination))) 200
  end.

End GetBooks.

(** ** The sample data of [init_db] *)

(** The table [init_db()] leaves when it finds the database empty. *)
Definition init_db (now : datetime) : table :=
  [ Book.mk 1 (Some "Python Crash Course") (Some "Eric Matthes")
            (Some 2019) (Some "978-1593279288") (Some now);
    Book.mk 2 (Some "Flask Web Development") (Some "Miguel Grinberg")
            (Some 2018) (Some "978-1491991732") (Some now);
    Book.mk 3 (Some "Clean Code") (Some "Robert C. Martin")
            (Some 2008) (Some "978-0132350884") (Some now) ].

Definition noon : datetime := mkdatetime 2024 1 15 12 0 0 0.


(** ** [init_db()], run on any table *)

(** [db.session.add_all(sample_books); db.session.commit()] behind the
    test [Book.query.count() == 0]: the three rows are inserted in
    order, each with the time of its own INSERT as [created_at], and
    the one commit keeps all of them or none. *)
Definition init_db_on (t1 t2 t3 : datetime) (tbl : table) : exn + table :=
  if (List.length tbl =? 0)%nat then
    match add_commit t1 tbl (Some "Python Crash Course") (Some "Eric Matthes")
                     (Some 2019) (Some "978-1593279288") with
    | inl e => inl e
    | inr (_, tbl1) =>
      match add_commit t2 tbl1 (Some "Flask Web Development") (Some "Miguel Grinberg")
                       (Some 2018) (Some "978-1491991732") with
      | inl e => inl e
      | inr (_, tbl2) =>
        match add_commit t3 tbl2 (Some "Clean Code") (Some "Robert C. Martin")
                         (Some 2008) (Some "978-0132350884") with
        | inl e => inl e
        | inr (_, tbl3) => inr tbl3
        end
      end
    end
  else inr tbl.

(** ** The page of the index route and its script *)

(** The decimal digits of [n >= 0], most significant first, in front of
    [acc]; [fuel] bounds the number of digits. *)
Fixpoint decimal_digits (fuel : nat) (n : Z) (acc : string) : string :=
  match fuel with
  | O => acc
  | S fuel' =>
    if n <? 10 then String (digit n) acc
    else decimal_digits fuel' (n / 10) (String (digit n) acc)
  end.

(** The text a template literal gives for an integer: [`${n}`]. *)
Definition decimal (z : Z) : string :=
  if z <? 0 then String "-" (decimal_digits (S (Z.to_nat (- z))) (- z) "")
  else decimal_digits (S (Z.to_nat z)) z "".

Module Page.

(** The three globals of the script. Its numbers are JavaScript
    numbers, which hold the integers below 2^53 exactly; [page] and
    the numbers of the answers are taken to be among them. *)
Record state : Type := mk {
  page : Z;
  sort : string;
  order : string
}.


(** The query string of the [fetch] in [loadBooks]. *)
Definition query (s : state) : args :=
  [("page", decimal (page s)); ("per_page", "5");
   ("sort", sort s); ("order", order s)].

(** [loadBooks(sortField)]: the globals after the call and the query
    it fetches; [None] is the call without argument. *)
Definition loadBooks (sortField : option string) (s : state) : state * args :=
  let s :=
    if truthy sortField
    then match sortField with
         | Some f => mk (page s) f
                        (if (order s =? "asc")%string then "desc" else "asc")
         | None => s
         end
    else s in
  (s, query s).

(** [nextPage()] *)
Definition nextPage (s : state) : state * option args :=
  let (s', q) := loadBooks None (mk (page s + 1) (sort s) (order s)) in
  (s', Some q).

(** [prevPage()]: nothing is fetched on the first page. *)
Definition prevPage (s : state) : state * option args :=
  if page s >? 1
  then let (s', q) := loadBooks None (mk (page s - 1) (sort s) (order s)) in
       (s', Some q)
  else (s, None).

(** What the user can do on the page: click one of the three headers
    that carry an [onclick], or one of the two buttons. *)
Inductive event : Type :=
| ClickTitle
| ClickAuthor
| ClickYear
| Next
| Prev.

Definition handle (e : event) (s : state) : state * option args :=
  match e with
  | ClickTitle => let (s', q) := loadBooks (Some "title") s in (s', Some q)
  | ClickAuthor => let (s', q) := loadBooks (Some "author") s in (s', Some q)
  | ClickYear => let (s', q) := loadBooks (Some "year") s in (s', Some q)
  | Next => nextPage s
  | Prev => prevPage s
  end.

(** The globals after a run of events, from [s]. *)
Fixpoint run (es : list event) (s : state) : state :=
  match es with
  | [] => s
  | e :: es' => run es' (fst (handle e s))
  end.





End Page.

(** * The school application of part-3/app.py

    The routes of [part-3/app.py] over its three tables. The templates
    are not part of the file: a route that renders one returns the
    name of the page with the values it passes to it. *)

(** ORDER BY on any rows, as [sort_rows] is on books: [insert_by]
    puts a row before the first row that may follow it. *)
Fixpoint insert_by {A : Type} (le : A -> A -> bool) (x : A) (l : list A) : list A :=
  match l with
  | [] => [x]
  | y :: l' => if le x y then x :: l else y :: insert_by le x l'
  end.

Definition sort_by {A : Type} (le : A -> A -> bool) (l : list A) : list A :=
  fold_right (insert_by le) [] l.

(** [column LIKE pattern] in SQLite, which compares the ASCII letters
    without regard to case. *)
Definition sqlite_like (s pattern : string) : bool :=
  like (lower pattern) (lower s).

(** [request.form[key]]: a missing key raises BadRequestKeyError, which
    the framework answers with HTTP 400. *)
Definition form_getitem (form : args) (key : string) : Z + string :=
  match args_get form key with
  | Some v => inr v
  | None => inl 400
  end.

Inductive method : Type := GET | POST.

Module School.

Module Teacher.
Record t : Type := mk {
  id : Z;
  name : string;
  email : string
}.
End Teacher.

Module Course.
(** [teacher_id] is declared [nullable=False]; the attribute of an
    object is [None] when the constructor was not given it. *)
Record t : Type := mk {
  id : Z;
  name : string;
  description : option string;
  teacher_id : option Z
}.
End Course.

Module Student.
(** [course_id] holds what SQLite stores for the text of the form. *)
Record t : Type := mk {
  id : Z;
  name : string;
  email : string;
  course_id : sqlvalue
}.
End Student.

(** The three tables, each in storage order. *)
Record db : Type := mkdb {
  teachers : list Teacher.t;
  courses : list Course.t;
  students : list Student.t
}.

(** The pages, with what [render_template] is given for them. *)
Inductive page : Type :=
| IndexPage (students : list Student.t)                       (* index.html *)
| CoursesPage (courses : list Course.t)                       (* courses.html *)
| AddPage (courses : list Course.t)                           (* add.html *)
| EditPage (student : Student.t) (courses : list Course.t)    (* edit.html *)
| AddCoursePage                                               (* add_course.html *)
| TeachersPage (teachers : list Teacher.t).                   (* teachers.html *)

(** The dictionary [queries_demo] returns. *)
Record demo : Type := mkdemo {
  d_filter : list string;
  d_order_by : list string;
  d_limit : list string
}.

Inductive reply : Type :=
| Render (p : page)
| Redirect (location : string)     (* redirect(url_for(...)): HTTP 302 *)
| Json (d : demo)
| Abort (status : Z)               (* 404 of get_or_404, 400 of a missing form key *)
| Raise (e : exn).                 (* unhandled: HTTP 500 *)

(** [flash(message, category)] *)
Definition flash : Type := (string * string)%type.

(** What a route leaves: its reply, the messages it flashed, and the
    tables. *)
Definition result : Type := (reply * list flash * db)%type.

(** *** The storage layer *)

Definition next_key (ids : list Z) : Z := 1 + fold_right Z.max 0 ids.

Definition email_taken (l : list Student.t) (i : Z) (email : string) : bool :=
  existsb (fun s => negb (Student.id s =? i) && (Student.email s =? email)%string) l.

(** INSERT of a student: [email] is UNIQUE. SQLite does not enforce
    the foreign key of [course_id] unless asked to, and the
    application does not ask. *)
Definition insert_student (d : db) (name email : string) (course_id : sqlvalue)
  : exn + db :=
  let i := next_key (map Student.id (students d)) in
  if email_taken (students d) i email then inl IntegrityError
  else inr (mkdb (teachers d) (courses d)
                 (students d ++ [Student.mk i name email course_id])).

(** UPDATE of the student [i]. *)
Definition update_student (d : db) (i : Z) (student : Student.t) : exn + db :=
  if email_taken (students d) i (Student.email student) then inl IntegrityError
  else inr (mkdb (teachers d) (courses d)
                 (map (fun s => if Student.id s =? i then student else s) (students d))).

(** DELETE of the student [i]. *)
Definition remove_student (d : db) (i : Z) : db :=
  mkdb (teachers d) (courses d)
       (filter (fun s => negb (Student.id s =? i)) (students d)).

(** [Student.query.get(id)] *)
Definition get_student (d : db) (i : Z) : option Student.t :=
  find (fun s => Student.id s =? i) (students d).

(** INSERT of a course: [teacher_id] is NOT NULL. *)
Definition insert_course (d : db) (name : string) (description : option string)
    (teacher_id : option Z) : exn + db :=
  match teacher_id with
  | None => inl IntegrityError
  | Some _ =>
    inr (mkdb (teachers d)
              (courses d ++ [Course.mk (next_key (map Course.id (courses d)))
                                       name description teacher_id])
              (students d))
  end.

(** INSERT of a teacher: [email] is UNIQUE. *)
Definition insert_teacher (d : db) (name email : string) : exn + db :=
  if existsb (fun t => (Teacher.email t =? email)%string) (teachers d)
  then inl IntegrityError
  else inr (mkdb (teachers d ++ [Teacher.mk (next_key (map Teacher.id (teachers d)))
                                            name email])
                 (courses d) (students d)).

(** *** The routes *)

Definition index (d : db) : result :=
  (Render (IndexPage (students d)), [], d).

Definition courses_route (d : db) : result :=
  (Render (CoursesPage (courses d)), [], d).

Definition teachers_route (d : db) : result :=
  (Render (TeachersPage (teachers d)), [], d).

Section Routes.

(** What SQLite stores in an INTEGER column for a text it is given:
    the integer the text reads as, or the text itself. *)
Variable integer_affinity : string -> sqlvalue.

Definition add_student (m : method) (form : args) (d : db) : result :=
  match m with
  | POST =>
    match form_getitem form "name" with
    | inl status => (Abort status, [], d)
    | inr name =>
      match form_getitem form "email" with
      | inl status => (Abort status, [], d)
      | inr email =>
        match form_getitem form "course_id" with
        | inl status => (Abort status, [], d)
        | inr course_id =>
          match insert_student d name email (integer_affinity course_id) with
          | inl e => (Raise e, [], d)
          | inr d' =>
            (Redirect "/", [("Student added successfully!", "success")], d')
          end
        end
      end
    end
  | GET => (Render (AddPage (courses d)), [], d)
  end.

Definition edit_student (id : Z) (m : method) (form : args) (d : db) : result :=
  match get_student d id with
  | None => (Abort 404, [], d)
  | Some student =>
    match m with
    | POST =>
      match form_getitem form "name" with
      | inl status => (Abort status, [], d)
      | inr name =>
        match form_getitem form "email" with
        | inl status => (Abort status, [], d)
        | inr email =>
          match form_getitem form "course_id" with
          | inl status => (Abort status, [], d)
          | inr course_id =>
            let student :=
              Student.mk (Student.id student) name email (integer_affinity course_id) in
            match update_student d id student with
            | inl e => (Raise e, [], d)
            | inr d' => (Redirect "/", [("Student updated!", "success")], d')
            end
          end
        end
      end
    | GET => (Render (EditPage student (courses d)), [], d)
    end
  end.

End Routes.

Definition delete_student (id : Z) (d : db) : result :=
  match get_student d id with
  | None => (Abort 404, [], d)
  | Some student =>
    (Redirect "/", [("Student deleted!", "danger")],
     remove_student d (Student.id student))
  end.

Definition add_course (m : method) (form : args) (d : db) : result :=
  match m with
  | POST =>
    match form_getitem form "name" with
    | inl status => (Abort status, [], d)
    | inr name =>
      let description := args_get_default form "description" "" in
      match insert_course d name (Some description) None with
      | inl e => (Raise e, [], d)
      | inr d' => (Redirect "/courses", [("Course added!", "success")], d')
      end
    end
  | GET => (Render AddCoursePage, [], d)
  end.

Definition queries_demo (d : db) : result :=
  (Json (mkdemo
           (map Student.name
                (filter (fun s => sqlite_like (Student.name s) "%a%") (students d)))
           (map Student.name
                (sort_by (fun s t => String.leb (Student.name s) (Student.name t))
                         (students d)))
           (map Student.name (firstn 2 (students d)))),
   [], d).

(** *** The URL map *)

(** The requests the [@app.route] lines accept. *)
Inductive request : Type :=
| Index                                             (* /             *)
| Courses                                           (* /courses      *)
| AddStudent (m : method) (form : args)             (* /add          *)
| EditStudent (id : Z) (m : method) (form : args)   (* /edit/<id>    *)
| DeleteStudent (id : Z)                            (* /delete/<id>  *)
| AddCourse (m : method) (form : args)              (* /add-course   *)
| QueriesDemo                                       (* /queries-demo *)
| Teachers.                                         (* /teachers     *)

Definition serve (integer_affinity : string -> sqlvalue) (r : request) (d : db)
  : result :=
  match r with
  | Index => index d
  | Courses => courses_route d
  | AddStudent m form => add_student integer_affinity m form d
  | EditStudent id m form => edit_student integer_affinity id m form d
  | DeleteStudent id => delete_student id d
  | AddCourse m form => add_course m form d
  | QueriesDemo => queries_demo d
  | Teachers => teachers_route d
  end.

(** The tables after a run of requests. *)
Fixpoint run (integer_affinity : string -> sqlvalue) (rs : list request) (d : db)
  : db :=
  match rs with
  | [] => d
  | r :: rs' => run integer_affinity rs' (snd (serve integer_affinity r d))
  end.

(** *** [init_db()] *)

(** The two commits of [init_db]: an exception of the second leaves
    what the first wrote. *)
Definition init_db (d : db) : option exn * db :=
  let seeded_teachers :=
    if (List.length (teachers d) =? 0)%nat then
      match insert_teacher d "Mr. Sharma" "sharma@school.com" with
      | inl e => inl e
      | inr d1 => insert_teacher d1 "Ms. Patil" "patil@school.com"
      end
    else inr d in
  match seeded_teachers with
  | inl e => (Some e, d)
  | inr d2 =>
    if (List.length (courses d2) =? 0)%nat then
      match insert_course d2 "Python Basics" (Some "Learn Python fundamentals") (Some 1) with
      | inl e => (Some e, d2)
      | inr d3 =>
        match insert_course d3 "Web Development" (Some "HTML, CSS, Flask") (Some 2) with
        | inl e => (Some e, d2)
        | inr d4 =>
          match insert_course d4 "Data Science" (Some "Data analysis with Python")
                              (Some 1) with
          | inl e => (Some e, d2)
          | inr d5 => (None, d5)
          end
        end
      end
    else (None, d2)
  end.

End School.

(** * The inventory application of part-6/app.py

    Prices are Python floats. Their arithmetic is not modelled: the
    type and the four operations the file uses on it are parameters of
    the routes. *)

Module Inventory.

Section Floats.

Variable float : Type.

(** [float(s)]: [None] stands for ValueError. *)
Variable float_of_string : string -> option float.

(** Not a number: SQLite stores NULL for it, which the NOT NULL
    constraint of [price] refuses. *)
Variable is_nan : float -> bool.

(** [SELECT sum(quantity * price)] over the (quantity, price) pairs of
    the rows, [None] for NULL. *)
Variable sum_value : list (option Z * float) -> option float.

(** [x == 0], the one float that is falsy. *)
Variable is_zero : float -> bool.

(** [round(x, 2)] *)
Variable round2 : float -> float.

(** A row of the [product] table. [quantity] may be NULL. *)
Record Product : Type := mkProduct {
  id : Z;
  name : string;
  quantity : option Z;
  price : float
}.

(** [total_value]: the integer 0 of [or 0], or a float. *)
Inductive number : Type :=
| Int (z : Z)
| Float (f : float).

(** [round(total_value, 2)] *)
Definition round (n : number) : number :=
  match n with
  | Int z => Int z
  | Float f => Float (round2 f)
  end.

Inductive page : Type :=
| IndexPage (products : list Product) (total_products : Z) (total_value : number)
| AddPage
| EditPage (product : Product).

Inductive reply : Type :=
| Render (p : page)
| Redirect (location : string)
| Abort (status : Z)
| Raise (e : exn).

(** [Product.query.get(id)] *)
Definition get_product (tbl : list Product) (i : Z) : option Product :=
  find (fun p => id p =? i) tbl.

(** GET / *)
Definition index (a : args) (tbl : list Product) : reply :=
  let search := args_get a "search" in
  let products :=
    match search with
    | Some t => if truthy search
                then filter (fun p => ilike (Some (name p)) ("%" ++ t ++ "%")%string) tbl
                else tbl
    | None => tbl
    end in
  let total_products := Z.of_nat (List.length tbl) in
  let total_value :=
    match sum_value (map (fun p => (quantity p, price p)) tbl) with
    | Some v => if is_zero v then Int 0 else Float v
    | None => Int 0
    end in
  Render (IndexPage products total_products (round total_value)).

(** INSERT and UPDATE refuse a price that SQLite would store as NULL. *)
Definition insert_product (tbl : list Product) (n : string) (q : Z) (p : float)
  : exn + list Product :=
  if is_nan p then inl IntegrityError
  else inr (tbl ++ [mkProduct (1 + fold_right Z.max 0 (map id tbl)) n (Some q) p]).

Definition update_product (tbl : list Product) (i : Z) (product : Product)
  : exn + list Product :=
  if is_nan (price product) then inl IntegrityError
  else inr (map (fun r => if id r =? i then product else r) tbl).

(** The three fields of the form, in the order the routes read them:
    [request.form['name']], [int(request.form['quantity'])],
    [float(request.form['price'])]. *)
Definition read_form (form : args) : reply + string * Z * float :=
  match form_getitem form "name" with
  | inl status => inl (Abort status)
  | inr n =>
    match form_getitem form "quantity" with
    | inl status => inl (Abort status)
    | inr qs =>
      match int qs with
      | None => inl (Raise ValueError)
      | Some q =>
        match form_getitem form "price" with
        | inl status => inl (Abort status)
        | inr ps =>
          match float_of_string ps with
          | None => inl (Raise ValueError)
          | Some p => inr (n, q, p)
          end
        end
      end
    end
  end.

(** GET, POST /add *)
Definition add_product (m : method) (form : args) (tbl : list Product)
  : reply * list Product :=
  match m with
  | POST =>
    match read_form form with
    | inl r => (r, tbl)
    | inr (n, q, p) =>
      match insert_product tbl n q p with
      | inl e => (Raise e, tbl)
      | inr tbl' => (Redirect "/", tbl')
      end
    end
  | GET => (Render AddPage, tbl)
  end.

(** GET, POST /edit/<id> *)
Definition edit_product (i : Z) (m : method) (form : args) (tbl : list Product)
  : reply * list Product :=
  match get_product tbl i with
  | None => (Abort 404, tbl)
  | Some product =>
    match m with
    | POST =>
      match read_form form with
      | inl r => (r, tbl)
      | inr (n, q, p) =>
        match update_product tbl i (mkProduct (id product) n (Some q) p) with
        | inl e => (Raise e, tbl)
        | inr tbl' => (Redirect "/", tbl')
        end
      end
    | GET => (Render (EditPage product), tbl)
    end
  end.

(** GET /delete/<id> *)
Definition delete_product (i : Z) (tbl : list Product) : reply * list Product :=
  match get_product tbl i with
  | None => (Abort 404, tbl)
  | Some product => (Redirect "/", filter (fun r => negb (id r =? id product)) tbl)
  end.

End Floats.

End Inventory.

(** ** Vocabulary of the properties *)

(** The [books] array of an envelope that has one. *)
Definition books_of (e : envelope) : list Book.json :=
  match e with
  | Listing _ _ _ books => books
  | Found _ books => books
  | Error _ | Single _ _ | Message _ => []
  end.

(** A row whose title and author are both present and not empty. *)
Definition named (b : Book.t) : bool :=
  truthy (Book.title b) && truthy (Book.author b).

(** Some row of the table holds the isbn [s]. *)
Definition isbn_stored (tbl : table) (s : string) : Prop :=
  exists b, In b tbl /\ Book.isbn b = Some s.

(** The rows of a table before and after an UPDATE of the row [i]. *)
Definition replace_row (i : Z) (book : Book.t) (tbl : table) : table :=
  map (fun b => if Book.id b =? i then book else b) tbl.

(** [starts_with p s]: [s] begins with [p]. *)
Fixpoint starts_with (p s : string) : bool :=
  match p with
  | EmptyString => true
  | String c p' =>
    match s with
    | EmptyString => false
    | String d s' => (c =? d)%char && starts_with p' s'
    end
  end.

(** [infix p s]: [p] occurs in [s] as a substring. *)
Fixpoint infix (p s : string) : bool :=
  starts_with p s ||
  match s with
  | EmptyString => false
  | String _ s' => infix p s'
  end.

(** The case-insensitive substring test the comments of [search_books]
    describe ("partial match"); a NULL contains nothing. *)
Definition contains_text (needle : string) (v : option string) : bool :=
  match v with
  | Some s => infix (lower needle) (lower s)
  | None => false
  end.

(** A text filter of the search: applied when the parameter is there
    and not empty. *)
Definition text_wanted (arg v : option string) : bool :=
  match arg with
  | Some t => if truthy arg then contains_text t v else true
  | None => true
  end.

(** The [year] parameter of a search: [Some None] when it is absent
    or empty, [Some (Some n)] when it reads as the integer [n], and
    [None] when [int] raises ValueError on it. *)
Definition year_arg (a : args) : option (option Z) :=
  match args_get a "year" with
  | Some y => if truthy (Some y) then option_map Some (int y) else Some None
  | None => Some None
  end.

Definition year_wanted (n : option Z) (b : Book.t) : bool :=
  match n with
  | Some n => year_is n b
  | None => true
  end.

(** A text without the two wildcard characters of LIKE. *)
Fixpoint plain (s : string) : bool :=
  match s with
  | EmptyString => true
  | String c s' => negb (c =? "%")%char && negb (c =? "_")%char && plain s'
  end.

(** Bodies used as examples. *)
Definition dune : dict :=
  mkdict (Value "Dune") (Value "Herbert") Absent Absent [].

Definition emma_blank_isbn : dict :=
  mkdict (Value "Emma") (Value "Austen") (Value 1815) (Value "") [].

Definition clean_code_again : dict :=
  mkdict (Value "Clean Code, 2nd ed.") (Value "Robert C. Martin")
         Absent (Value "978-0132350884") [].

Definition only_year (y : Z) : dict :=
  mkdict Absent Absent (Value y) Absent [].

Definition only_title (t : string) : dict :=
  mkdict (Value t) Absent Absent Absent [].

Definition only_isbn (s : string) : dict :=
  mkdict Absent Absent Absent (Value s) [].

(** The non-null isbns of a table, row by row. *)
Definition isbns (tbl : table) : list string :=
  flat_map (fun b => match Book.isbn b with
                     | Some s => [s]
                     | None => []
                     end) tbl.

(** The constraints the table is declared with: [id] is the primary
    key, [isbn] is UNIQUE, [title] and [author] are NOT NULL. *)
Definition constraints_hold (tbl : table) : Prop :=
  NoDup (map Book.id tbl) /\ NoDup (isbns tbl) /\ forallb not_null tbl = true.

(** The first of the sample books. *)
Definition python_crash_course : Book.t :=
  Book.mk 1 (Some "Python Crash Course") (Some "Eric Matthes")
          (Some 2019) (Some "978-1593279288") (Some noon).

(** The sample table after a fourth record was created with the
    empty string as isbn. *)
Definition with_blank_isbn : table :=
  init_db noon ++ [Book.mk 4 (Some "Dune") (Some "Herbert") None (Some "") (Some noon)].

(** The envelope of the outcome says [success]. *)
Definition succeeded (o : outcome) : bool :=
  match o with
  | Response e _ => success e
  | Abort _ | Raise _ => false
  end.

(** A text of decimal digits only. *)
Fixpoint all_digits (s : string) : bool :=
  match s with
  | EmptyString => true
  | String c s' => is_digit c && all_digits s'
  end.

(** What the [student] table is declared to keep: the primary key and
    the UNIQUE email. *)
Definition students_consistent (d : School.db) : Prop :=
  NoDup (map School.Student.id (School.students d)) /\
  NoDup (map School.Student.email (School.students d)).

(** A reply that is a redirect. *)
Definition redirected (r : School.reply) : bool :=
  match r with
  | School.Redirect _ => true
  | _ => false
  end.

(** A storage of INTEGER columns that reads the decimal integers and
    keeps every other text, for the examples. *)
Definition reads_decimal (s : string) : sqlvalue :=
  match int s with
  | Some z => SqlInteger z
  | None => SqlText s
  end.

Definition empty_school : School.db := School.mkdb [] [] [].

Definition asha_form : args :=
  [("name", "Asha"); ("email", "asha@school.com"); ("course_id", "1")].

Definition ben_form : args :=
  [("name", "ben"); ("email", "ben@school.com"); ("course_id", "2")].

(** The products and the product count of a page of the inventory. *)
Definition listed_products {float : Type} (r : Inventory.reply float)
  : list (Inventory.Product float) :=
  match r with
  | Inventory.Render _ (Inventory.IndexPage _ products _ _) => products
  | _ => []
  end.

Definition dashboard {float : Type} (r : Inventory.reply float)
  : option (Z * Inventory.number float) :=
  match r with
  | Inventory.Render _ (Inventory.IndexPage _ _ total_products total_value) =>
    Some (total_products, total_value)
  | _ => None
  end.

(** Prices in whole cents, read with [int]: a stand-in for the floats
    in the examples. *)
Definition cents_sum (l : list (option Z * Z)) : option Z :=
  match l with
  | [] => None
  | _ => Some (fold_right (fun qp acc =>
                             match fst qp with
                             | Some q => q * snd qp + acc
                             | None => acc
                             end) 0 l)
  end.

Definition pens_form : args := [("name", "Pens"); ("quantity", "12"); ("price", "150")].

(** * Properties *)

(** ** The storage layer *)

Lemma query_get_some (tbl : table) (i : Z) (b : Book.t) :
  query_get tbl i = Some b -> In b tbl /\ Book.id b = i.
Proof.
  unfold query_get. intros H. apply find_some in H.
  destruct H as [Hin Hid]. split; [exact Hin | lia].
Qed.

Lemma query_get_none (tbl : table) (i : Z) :
  query_get tbl i = None <-> (forall b, In b tbl -> Book.id b <> i).
Proof.
  unfold query_get. split.
  - intros H b Hin Hid.
    pose proof (find_none _ _ H b Hin) as Hf. simpl in Hf. lia.
  - intros H. induction tbl as [|r tbl IH]; simpl; [reflexivity|].
    destruct (Book.id r =? i) eqn:E.
    + exfalso. apply (H r); [left; reflexivity | lia].
    + apply IH. intros b Hb. apply H. right. exact Hb.
Qed.

Lemma query_get_replace_row (tbl : table) (i : Z) (old book : Book.t) :
  query_get tbl i = Some old -> Book.id book = i ->
  query_get (replace_row i book tbl) i = Some book.
Proof.
  unfold query_get, replace_row. intros Hget Hid.
  induction tbl as [|r tbl IH]; simpl in *; [discriminate|].
  destruct (Book.id r =? i) eqn:E.
  - rewrite Hid, Z.eqb_refl. reflexivity.
  - rewrite E. apply IH. exact Hget.
Qed.

Lemma query_get_replace_row_other (tbl : table) (i j : Z) (book : Book.t) :
  j <> i -> Book.id book = i ->
  query_get (replace_row i book tbl) j = query_get tbl j.
Proof.
  unfold query_get, replace_row. intros Hji Hid.
  induction tbl as [|r tbl IH]; simpl; [reflexivity|].
  destruct (Book.id r =? i) eqn:E.
  - assert ((Book.id r =? j) = false) as -> by lia.
    assert ((Book.id book =? j) = false) as -> by lia.
    exact IH.
  - destruct (Book.id r =? j); [reflexivity | exact IH].
Qed.

Lemma query_get_delete_commit (tbl : table) (i : Z) :
  query_get (delete_commit tbl i) i = None.
Proof.
  apply query_get_none. intros b Hin. unfold delete_commit in Hin.
  apply filter_In in Hin. destruct Hin as [_ Hne]. lia.
Qed.

Lemma filter_by_isbn_first_stored (tbl : table) (s : string) :
  is_some (filter_by_isbn_first tbl s) = true <-> isbn_stored tbl s.
Proof.
  unfold filter_by_isbn_first, isbn_stored, isbn_is. split.
  - destruct (find _ tbl) as [b|] eqn:E; [intros _ | discriminate].
    apply find_some in E. destruct E as [Hin Hb]. exists b. split; [exact Hin|].
    destruct (Book.isbn b) as [s'|]; [|discriminate].
    apply String.eqb_eq in Hb. now subst.
  - intros [b [Hin Hb]].
    destruct (find _ tbl) as [b'|] eqn:E; [reflexivity|].
    pose proof (find_none _ _ E b Hin) as Hf. simpl in Hf.
    rewrite Hb, String.eqb_refl in Hf. discriminate.
Qed.

Lemma in_isbns (tbl : table) (s : string) :
  In s (isbns tbl) <-> isbn_stored tbl s.
Proof.
  unfold isbns, isbn_stored. rewrite in_flat_map. split.
  - intros [b [Hb Hs]]. exists b. split; [exact Hb|].
    destruct (Book.isbn b) as [s'|]; [|contradiction].
    destruct Hs as [->|[]]. reflexivity.
  - intros [b [Hb Hs]]. exists b. split; [exact Hb|]. rewrite Hs. left. reflexivity.
Qed.

Lemma init_db_isbns (now : datetime) : NoDup (isbns (init_db now)).
Proof. cbn. repeat constructor; cbn; intuition discriminate. Qed.

(** Under the UNIQUE constraint an isbn that is stored is stored in
    one row. *)
Lemma one_row_per_isbn (tbl : table) (s : string) :
  NoDup (isbns tbl) -> isbn_stored tbl s ->
  List.length (filter (isbn_is s) tbl) = 1%nat.
Proof.
  intros Hnd Hst. apply in_isbns in Hst.
  induction tbl as [|r tbl IH]; [contradiction|].
  unfold isbns in Hnd, Hst. cbn [flat_map filter] in *.
  fold (isbns tbl) in Hnd, Hst. unfold isbn_is at 1.
  destruct (Book.isbn r) as [s'|]; [|exact (IH Hnd Hst)].
  cbn [app] in Hnd, Hst. apply NoDup_cons_iff in Hnd. destruct Hnd as [Hnotin Hnd].
  destruct (String.eqb_spec s' s) as [->|Hne].
  - cbn [List.length]. f_equal.
    assert (filter (isbn_is s) tbl = []) as ->; [|reflexivity].
    destruct (filter (isbn_is s) tbl) as [|b l] eqn:E; [reflexivity|].
    exfalso. apply Hnotin. apply in_isbns.
    assert (In b (filter (isbn_is s) tbl)) as Hb by (rewrite E; left; reflexivity).
    apply filter_In in Hb. destruct Hb as [Hb Hs]. exists b. split; [exact Hb|].
    unfold isbn_is in Hs. destruct (Book.isbn b) as [s''|]; [|discriminate].
    apply String.eqb_eq in Hs. now subst.
  - apply IH; [exact Hnd|]. destruct Hst as [Heq|Hin]; [congruence | exact Hin].
Qed.

(** The key of a new row is larger than every key in use. *)
Lemma next_id_fresh (tbl : table) (b : Book.t) :
  In b tbl -> Book.id b < next_id tbl.
Proof.
  unfold next_id. induction tbl as [|r tbl IH]; cbn [map fold_right In]; [intros []|].
  intros [-> | Hin]; [lia | specialize (IH Hin); lia].
Qed.

Lemma isbn_taken_fresh (tbl : table) (v : option string) :
  isbn_taken tbl (next_id tbl) v = true <->
  exists s, v = Some s /\ isbn_stored tbl s.
Proof.
  unfold isbn_taken, isbn_stored. destruct v as [s|].
  - rewrite existsb_exists. split.
    + intros [b [Hin Hb]]. apply andb_prop in Hb. destruct Hb as [_ Hb].
      exists s. split; [reflexivity|]. exists b. split; [exact Hin|].
      unfold isbn_is in Hb. destruct (Book.isbn b) as [s'|]; [|discriminate].
      apply String.eqb_eq in Hb. now subst.
    + intros [s' [Hs [b [Hin Hb]]]]. injection Hs as <-.
      exists b. split; [exact Hin|].
      pose proof (next_id_fresh tbl b Hin) as Hlt.
      unfold isbn_is. rewrite Hb, String.eqb_refl.
      assert ((Book.id b =? next_id tbl) = false) as -> by lia. reflexivity.
  - split; [discriminate | intros [s [Hs _]]; discriminate].
Qed.

Lemma truthy_some (v : option string) :
  truthy v = true <-> exists s, v = Some s /\ s <> "".
Proof.
  unfold truthy. destruct v as [s|].
  - rewrite negb_true_iff, String.eqb_neq. split.
    + intros H. exists s. auto.
    + intros [s' [Hs Hne]]. now injection Hs as <-.
  - split; [discriminate | intros [s [Hs _]]; discriminate].
Qed.

(** ** Create *)

Lemma get_some_contains {A : Type} (e : entry A) (a : A) :
  get e = Some a -> e = Value a.
Proof. destruct e; simpl; congruence. Qed.

Lemma truthy_title_not_empty (d : dict) :
  truthy (get (d_title d)) = true -> not_ (Some d) = false.
Proof.
  intros H. apply truthy_some in H. destruct H as [s [Hs _]].
  apply get_some_contains in Hs. unfold not_, dict_is_empty. rewrite Hs.
  reflexivity.
Qed.

(** The handler on a JSON object, test by test. *)
Lemma create_book_object (now : datetime) (d : dict) (tbl : table) :
  create_book now (JsonObject d) tbl =
  if not_ (Some d) then (Response (Error "No data provided") 400, tbl)
  else if negb (truthy (get (d_title d))) || negb (truthy (get (d_author d)))
  then (Response (Error "Title and author are required") 400, tbl)
  else if truthy (get (d_isbn d)) &&
          match get (d_isbn d) with
          | Some s => is_some (filter_by_isbn_first tbl s)
          | None => false
          end
  then (Response (Error "ISBN already exists") 400, tbl)
  else match add_commit now tbl (get (d_title d)) (get (d_author d))
                        (get (d_year d)) (get (d_isbn d)) with
       | inl e => (Raise e, tbl)
       | inr (new_book, tbl') =>
         (Response (Single "Book created successfully" (Book.to_dict new_book)) 201,
          tbl')
       end.
Proof. reflexivity. Qed.

(** A body that passes the three tests is inserted whenever no row
    holds its isbn. *)
Lemma create_book_inserts (now : datetime) (d : dict) (tbl : table) (t a : string) :
  get (d_title d) = Some t -> t <> "" ->
  get (d_author d) = Some a -> a <> "" ->
  (forall s, get (d_isbn d) = Some s -> ~ isbn_stored tbl s) ->
  create_book now (JsonObject d) tbl =
  (Response (Single "Book created successfully"
               (Book.to_dict (Book.mk (next_id tbl) (Some t) (Some a)
                                      (get (d_year d)) (get (d_isbn d)) (Some now))))
            201,
   tbl ++ [Book.mk (next_id tbl) (Some t) (Some a)
                   (get (d_year d)) (get (d_isbn d)) (Some now)]).
Proof.
  intros Ht Hne Ha Hna Hfree.
  assert (truthy (get (d_title d)) = true) as Tt
      by (apply truthy_some; exists t; auto).
  assert (truthy (get (d_author d)) = true) as Ta
      by (apply truthy_some; exists a; auto).
  rewrite create_book_object, (truthy_title_not_empty d Tt), Tt, Ta.
  cbn [negb orb].
  assert (match get (d_isbn d) with
          | Some s => is_some (filter_by_isbn_first tbl s)
          | None => false
          end = false) as ->.
  { destruct (get (d_isbn d)) as [s|] eqn:Es; [|reflexivity].
    destruct (is_some (filter_by_isbn_first tbl s)) eqn:E; [|reflexivity].
    apply filter_by_isbn_first_stored in E. exfalso. exact (Hfree s eq_refl E). }
  rewrite andb_false_r. unfold add_commit. cbn [Book.id].
  assert (isbn_taken tbl (next_id tbl) (get (d_isbn d)) = false) as ->.
  { destruct (isbn_taken tbl (next_id tbl) (get (d_isbn d))) eqn:E; [|reflexivity].
    apply isbn_taken_fresh in E. destruct E as [s [Hs Hst]].
    exfalso. exact (Hfree s Hs Hst). }
  rewrite Ht, Ha. reflexivity.
Qed.

(** The three error envelopes of the handler, and nothing else, carry
    status 400 with [success] false. *)
Lemma create_book_error_envelope (now : datetime) (d : dict) (tbl : table) :
  (exists e, fst (create_book now (JsonObject d) tbl) = Response (Error e) 400) <->
  truthy (get (d_title d)) = false \/ truthy (get (d_author d)) = false \/
  exists s, get (d_isbn d) = Some s /\ s <> "" /\ isbn_stored tbl s.
Proof.
  rewrite create_book_object.
  destruct (truthy (get (d_title d))) eqn:Tt.
  2:{ split; [auto|]. intros _.
      destruct (not_ (Some d)); cbn; eexists; reflexivity. }
  rewrite (truthy_title_not_empty d Tt).
  destruct (truthy (get (d_author d))) eqn:Ta; cbn [negb orb].
  2:{ split; [auto|]. intros _. eexists. reflexivity. }
  destruct (truthy (get (d_isbn d))) eqn:Ti; cbn [andb].
  - apply truthy_some in Ti. destruct Ti as [s [Hs Hne]]. rewrite Hs.
    destruct (is_some (filter_by_isbn_first tbl s)) eqn:E.
    + split; [|intros _; eexists; reflexivity].
      intros _. right. right. exists s. split; [reflexivity|]. split; [exact Hne|].
      apply filter_by_isbn_first_stored. exact E.
    + split.
      * destruct (add_commit now tbl _ _ _ _) as [e|[nb tbl']]; cbn;
          intros [e' He']; discriminate.
      * intros [|[|[s' [Hs' [_ Hst]]]]]; try discriminate.
        injection Hs' as <-. apply filter_by_isbn_first_stored in Hst.
        rewrite Hst in E. discriminate.
  - split.
    + destruct (add_commit now tbl _ _ _ _) as [e|[nb tbl']]; cbn;
        intros [e' He']; discriminate.
    + intros [|[|[s [Hs [Hne _]]]]]; try discriminate.
      exfalso. assert (truthy (get (d_isbn d)) = true) as T
          by (apply truthy_some; exists s; auto).
      rewrite T in Ti. discriminate.
Qed.

(** C2, as amended: the create operation answers HTTP 400 with the
    [success=false] envelope exactly when the body is JSON [null], or an
    object whose title or author is missing, null or empty, or whose
    non-empty isbn is already stored; a body that does not parse is
    answered 400 by the framework, outside the handler and without the
    envelope; and a body with title and author whose isbn no row holds
    is persisted with the next id, the current time as [created_at],
    year and isbn as given (null when absent), and answered HTTP 201
    with the serialized record. *)
Theorem create_book_contract (now : datetime) (body : payload) (tbl : table) :
  ((exists e, fst (create_book now body tbl) = Response (Error e) 400) <->
   body = JsonNull \/
   exists d, body = JsonObject d /\
     (truthy (get (d_title d)) = false \/ truthy (get (d_author d)) = false \/
      exists s, get (d_isbn d) = Some s /\ s <> "" /\ isbn_stored tbl s)) /\
  (body = Malformed -> create_book now body tbl = (Abort 400, tbl)) /\
  (forall d t a,
     body = JsonObject d ->
     get (d_title d) = Some t -> t <> "" ->
     get (d_author d) = Some a -> a <> "" ->
     (forall s, get (d_isbn d) = Some s -> ~ isbn_stored tbl s) ->
     exists new_book,
       create_book now body tbl =
       (Response (Single "Book created successfully" (Book.to_dict new_book)) 201,
        tbl ++ [new_book]) /\
       Book.id new_book = next_id tbl /\
       Book.created_at new_book = Some now /\
       Book.title new_book = Some t /\
       Book.author new_book = Some a /\
       Book.year new_book = get (d_year d) /\
       Book.isbn new_book = get (d_isbn d)).
Proof.
  split; [|split].
  - destruct body as [| |d].
    + cbn. split.
      * intros [e He]. discriminate.
      * intros [H|[d [H _]]]; discriminate.
    + cbn. split; [auto|]. intros _. eexists. reflexivity.
    + rewrite create_book_error_envelope. split.
      * intros H. right. exists d. auto.
      * intros [H|[d' [Hd H]]]; [discriminate|]. injection Hd as <-. exact H.
  - intros ->. reflexivity.
  - intros d t a -> Ht Hne Ha Hna Hfree.
    eexists. split; [apply (create_book_inserts now d tbl t a); assumption|].
    cbn. auto 10.
Qed.

(** C2: two requests at which the claim as stated fails. A body that
    does not parse is answered 400 without the error envelope, and a
    second record with the empty string as isbn is answered neither 400
    nor 201: the commit raises IntegrityError. *)
Lemma create_book_contract_counterexample :
  create_book noon Malformed [] = (Abort 400, []) /\
  exists tbl,
    create_book noon (JsonObject (mkdict (Value "Dune") (Value "Herbert") Absent (Value "") []))
                [] =
    (Response (Single "Book created successfully"
                 (Book.mkjson 1 (Some "Dune") (Some "Herbert") None (Some "")
                              (Some "2024-01-15T12:00:00")))
              201, tbl) /\
    create_book noon (JsonObject emma_blank_isbn) tbl = (Raise IntegrityError, tbl).
Proof.
  split; [reflexivity|]. eexists. split; reflexivity.
Qed.

(** C3, as amended: a create request with a title and an author whose
    body supplies a non-empty isbn that a persisted record holds is
    answered HTTP 400 "ISBN already exists", and the table is left as
    it was: under its uniqueness constraint it still holds exactly one
    record with that isbn. *)
Theorem create_book_duplicate_isbn (now : datetime) (d : dict) (tbl : table) (s : string) :
  truthy (get (d_title d)) = true ->
  truthy (get (d_author d)) = true ->
  get (d_isbn d) = Some s -> s <> "" ->
  isbn_stored tbl s ->
  create_book now (JsonObject d) tbl =
  (Response (Error "ISBN already exists") 400, tbl) /\
  (NoDup (isbns tbl) ->
   List.length (filter (isbn_is s) (snd (create_book now (JsonObject d) tbl))) = 1%nat).
Proof.
  intros Tt Ta Hs Hne Hst.
  assert (create_book now (JsonObject d) tbl =
          (Response (Error "ISBN already exists") 400, tbl)) as Hresp.
  { rewrite create_book_object, (truthy_title_not_empty d Tt), Tt, Ta, Hs.
    cbn [negb orb].
    assert (truthy (Some s) = true) as -> by (apply truthy_some; exists s; auto).
    apply filter_by_isbn_first_stored in Hst. rewrite Hst. reflexivity. }
  split; [exact Hresp|]. intros Hnd. rewrite Hresp. cbn [snd].
  apply one_row_per_isbn; assumption.
Qed.

Lemma create_book_duplicate_isbn_witness :
  create_book noon (JsonObject clean_code_again) (init_db noon) =
  (Response (Error "ISBN already exists") 400, init_db noon) /\
  List.length (filter (isbn_is "978-0132350884")
                      (snd (create_book noon (JsonObject clean_code_again)
                                        (init_db noon)))) = 1%nat.
Proof.
  assert (isbn_stored (init_db noon) "978-0132350884") as Hst.
  { eexists. split; [right; right; left; reflexivity | reflexivity]. }
  destruct (create_book_duplicate_isbn noon clean_code_again (init_db noon)
              "978-0132350884" eq_refl eq_refl eq_refl ltac:(discriminate) Hst)
    as [Hresp Hone].
  split; [exact Hresp|]. apply Hone. apply init_db_isbns.
Defined.

(** C3: two requests at which the claim as stated fails. The isbn of a
    persisted record sent without a title is refused by the validation
    of title and author, not as a conflict; and the empty string, which
    is not null, sent a second time escapes the check of the handler
    and is refused by the commit with IntegrityError. *)
Lemma create_book_duplicate_isbn_counterexample :
  create_book noon (JsonObject (only_isbn "978-0132350884")) (init_db noon) =
  (Response (Error "Title and author are required") 400, init_db noon) /\
  create_book noon
    (JsonObject (mkdict (Value "Dune") (Value "Herbert") Absent (Value "") []))
    (init_db noon) =
  (Response (Single "Book created successfully"
               (Book.mkjson 4 (Some "Dune") (Some "Herbert") None (Some "")
                            (Some "2024-01-15T12:00:00")))
            201, with_blank_isbn) /\
  create_book noon (JsonObject emma_blank_isbn) with_blank_isbn =
  (Raise IntegrityError, with_blank_isbn).
Proof.
  split; [reflexivity|]. split; reflexivity.
Qed.

(** ** Ordering *)

Section Ordering.

Variable le : Book.t -> Book.t -> bool.
Hypothesis le_total : forall a b, le a b = true \/ le b a = true.

Lemma insert_row_perm (x : Book.t) (l : list Book.t) :
  Permutation (x :: l) (insert_row le x l).
Proof.
  induction l as [|y l IH]; simpl; [apply Permutation_refl|].
  destruct (le x y); [apply Permutation_refl|].
  apply perm_trans with (y :: x :: l); [apply perm_swap|].
  apply perm_skip. exact IH.
Qed.



End Ordering.






(** ORDER BY returns the rows of the table, each as often as it is
    there. *)
Lemma sort_rows_perm (e : order_expr) (l : list Book.t) :
  Permutation l (sort_rows e l).
Proof.
  unfold sort_rows. induction l as [|x l IH]; simpl; [constructor|].
  apply perm_trans with (x :: fold_right (insert_row (row_le e)) [] l).
  - apply perm_skip. exact IH.
  - apply insert_row_perm.
Qed.



(** ** Paging *)

Lemma in_firstn {A : Type} (n : nat) (l : list A) (x : A) :
  In x (firstn n l) -> In x l.
Proof.
  intros H. rewrite <- (firstn_skipn n l). apply in_or_app. left. exact H.
Qed.

Lemma in_skipn {A : Type} (n : nat) (l : list A) (x : A) :
  In x (skipn n l) -> In x l.
Proof.
  intros H. rewrite <- (firstn_skipn n l). apply in_or_app. right. exact H.
Qed.


Lemma paginate_in (rows : list Book.t) (p k : Z) (b : Book.t) :
  In b (items (paginate rows p k)) -> In b rows.
Proof.
  unfold paginate, items. intros H. apply in_firstn in H. apply in_skipn in H.
  exact H.
Qed.







(** ** List *)

Section ListRoute.

Variable inherited : string -> bool.



Lemma sorted_query_other (sort order : string) (tbl : table) :
  getattr inherited sort = Some Other ->
  sorted_query inherited sort order tbl =
  inl (if (order =? "desc")%string then AttributeError else ArgumentError).
Proof.
  intros H. unfold sorted_query, order_clause. rewrite H.
  destruct (order =? "desc")%string; reflexivity.
Qed.

Lemma sorted_query_perm (sort order : string) (tbl rows : table) :
  sorted_query inherited sort order tbl = inr rows -> Permutation tbl rows.
Proof.
  unfold sorted_query. destruct (getattr inherited sort) as [column|].
  - destruct (order_clause column order) as [e|e]; [discriminate|].
    intros [= <-]. apply sort_rows_perm.
  - intros [= <-]. apply Permutation_refl.
Qed.

Lemma get_books_of_query (a : args) (tbl rows : table) :
  sorted_query inherited (args_get_default a "sort" "id")
               (args_get_default a "order" "asc") tbl = inr rows ->
  get_books inherited a tbl =
  Response (Listing (args_get_int a "page" 1) (args_get_int a "per_page" 5)
                    (Z.of_nat (List.length tbl))
                    (map Book.to_dict
                         (items (paginate rows (args_get_int a "page" 1)
                                          (args_get_int a "per_page" 5)))))
           200.
Proof.
  intros H. unfold get_books. rewrite H. cbn [total paginate].
  rewrite (Permutation_length (sorted_query_perm _ _ _ _ H)). reflexivity.
Qed.

(** The listing never fails with an envelope: it answers 200 or an
    exception escapes the sorting block. *)
Lemma get_books_outcome (a : args) (tbl : table) :
  (exists e, get_books inherited a tbl = Raise e) \/
  exists rows,
    sorted_query inherited (args_get_default a "sort" "id")
                 (args_get_default a "order" "asc") tbl = inr rows.
Proof.
  unfold get_books. destruct (sorted_query _ _ _ _) as [e|rows].
  - left. exists e. reflexivity.
  - right. exists rows. reflexivity.
Qed.

(** Every book of a listing is a row of the table. *)
Lemma get_books_rows (a : args) (tbl : table) (env : envelope) (s : Z) :
  get_books inherited a tbl = Response env s ->
  forall j, In j (books_of env) -> exists b, In b tbl /\ j = Book.to_dict b.
Proof.
  intros H j Hj. destruct (get_books_outcome a tbl) as [[e He]|[rows Hr]].
  - rewrite He in H. discriminate.
  - rewrite (get_books_of_query a tbl rows Hr) in H. injection H as <- <-.
    cbn [books_of] in Hj. apply in_map_iff in Hj. destruct Hj as [b [<- Hb]].
    exists b. split; [|reflexivity].
    apply paginate_in in Hb.
    apply (Permutation_in b (Permutation_sym (sorted_query_perm _ _ _ _ Hr))).
    exact Hb.
Qed.




(** C9: the request at which the code leaves the claim. [to_dict] is
    an attribute of [Book], so the test of the sorting block lets it
    through, and the listing ends in an exception (HTTP 500) instead
    of an ordered or an unsorted page: [column.desc()] raises
    AttributeError, and without "desc" [order_by] raises
    ArgumentError. *)
Theorem get_books_sort_by_method (tbl : table) :
  hasattr inherited "to_dict" = true /\
  get_books inherited [("sort", "to_dict"); ("order", "desc")] tbl = Raise AttributeError /\
  get_books inherited [("sort", "to_dict")] tbl = Raise ArgumentError /\
  status_code (get_books inherited [("sort", "to_dict")] tbl) = 500.
Proof. repeat split. Qed.

(** C1: the request at which the code leaves the claim. Page 2 of 5
    rows each lies beyond the last page of the three sample books;
    with [sort=to_dict] the answer is not the empty array with
    [success] but the AttributeError of the sorting block. *)
Theorem get_books_page_beyond_last_raises :
  sorted_query inherited "to_dict" "desc" (init_db noon) = inl AttributeError /\
  get_books inherited
    [("page", "2"); ("per_page", "5"); ("sort", "to_dict"); ("order", "desc")]
    (init_db noon) = Raise AttributeError /\
  get_books inherited [("page", "2"); ("per_page", "5")] (init_db noon) =
  Response (Listing 2 5 3 []) 200.
Proof. repeat split. Qed.

End ListRoute.

(** ** Update *)

Lemma assign_fields (book : Book.t) (d : dict) :
  Book.id (assign book d) = Book.id book /\
  Book.created_at (assign book d) = Book.created_at book /\
  Book.title (assign book d) =
    (if contains (d_title d) then get (d_title d) else Book.title book) /\
  Book.author (assign book d) =
    (if contains (d_author d) then get (d_author d) else Book.author book) /\
  Book.year (assign book d) =
    (if contains (d_year d) then get (d_year d) else Book.year book) /\
  Book.isbn (assign book d) =
    (if contains (d_isbn d) then get (d_isbn d) else Book.isbn book).
Proof.
  unfold assign, getitem.
  destruct (contains (d_title d)), (contains (d_author d)),
           (contains (d_year d)), (contains (d_isbn d)); cbn; auto 10.
Qed.

(** The handler on a JSON object sent for a record that exists. *)
Lemma update_book_object (id : Z) (d : dict) (tbl : table) (old : Book.t) :
  query_get tbl id = Some old ->
  update_book id (JsonObject d) tbl =
  if not_ (Some d) then (Response (Error "No data provided") 400, tbl)
  else if negb (not_null (assign old d)) ||
          isbn_taken tbl id (Book.isbn (assign old d))
  then (Raise IntegrityError, tbl)
  else (Response (Single "Book updated successfully" (Book.to_dict (assign old d))) 200,
        replace_row id (assign old d) tbl).
Proof.
  intros H. unfold update_book, update_commit, replace_row. rewrite H. cbn.
  destruct (dict_is_empty d); [reflexivity|].
  destruct (negb (not_null (assign old d)) || _); reflexivity.
Qed.

(** C4: a successful update of an existing record applies the keys
    present in the body and nothing else. The body is a JSON object;
    the record found under the id afterwards is the one the response
    serializes; it has the id and the [created_at] of the record
    before; each of title, author, year and isbn has the value of the
    body when its key is present and the prior value when its key is
    absent; and every other record is as before. *)
Theorem update_book_partial
    (id : Z) (body : payload) (tbl tbl' : table) (old : Book.t) (env : envelope) :
  query_get tbl id = Some old ->
  update_book id body tbl = (Response env 200, tbl') ->
  exists d new_book,
    body = JsonObject d /\
    env = Single "Book updated successfully" (Book.to_dict new_book) /\
    query_get tbl' id = Some new_book /\
    Book.id new_book = Book.id old /\
    Book.created_at new_book = Book.created_at old /\
    Book.title new_book =
      (if contains (d_title d) then get (d_title d) else Book.title old) /\
    Book.author new_book =
      (if contains (d_author d) then get (d_author d) else Book.author old) /\
    Book.year new_book =
      (if contains (d_year d) then get (d_year d) else Book.year old) /\
    Book.isbn new_book =
      (if contains (d_isbn d) then get (d_isbn d) else Book.isbn old) /\
    (forall j, j <> id -> query_get tbl' j = query_get tbl j).
Proof.
  intros Hold Hup. destruct body as [| |d].
  - unfold update_book in Hup. rewrite Hold in Hup. discriminate.
  - unfold update_book in Hup. rewrite Hold in Hup. discriminate.
  - rewrite (update_book_object id d tbl old Hold) in Hup.
    destruct (not_ (Some d)); [discriminate|].
    destruct (negb (not_null (assign old d)) || _); [discriminate|].
    injection Hup as <- <-.
    destruct (assign_fields old d) as [Hid [Hc [Ht [Ha [Hy Hi]]]]].
    destruct (query_get_some tbl id old Hold) as [_ Hoid].
    exists d, (assign old d).
    split; [reflexivity|]. split; [reflexivity|].
    split; [apply (query_get_replace_row tbl id old); [exact Hold | congruence]|].
    split; [exact Hid|]. split; [exact Hc|]. split; [exact Ht|].
    split; [exact Ha|]. split; [exact Hy|]. split; [exact Hi|].
    intros j Hj. apply query_get_replace_row_other; [exact Hj | congruence].
Qed.

Lemma update_book_partial_witness :
  query_get (init_db noon) 1 = Some python_crash_course /\
  exists new_book,
    query_get (snd (update_book 1 (JsonObject (only_year 2020)) (init_db noon))) 1
      = Some new_book /\
    Book.id new_book = 1 /\
    Book.created_at new_book = Some noon /\
    Book.title new_book = Some "Python Crash Course" /\
    Book.author new_book = Some "Eric Matthes" /\
    Book.year new_book = Some 2020 /\
    Book.isbn new_book = Some "978-1593279288".
Proof.
  split; [reflexivity|].
  destruct (update_book_partial 1 (JsonObject (only_year 2020)) (init_db noon)
              _ python_crash_course _ eq_refl eq_refl)
    as [d [new_book [Hd [_ [Hget [Hid [Hc [Ht [Ha [Hy [Hi _]]]]]]]]]]].
  injection Hd as <-. exists new_book.
  split; [exact Hget|]. split; [exact Hid|]. split; [exact Hc|].
  split; [exact Ht|]. split; [exact Ha|]. split; [exact Hy | exact Hi].
Defined.

(** C7: the update handler has no check of the isbn. For a record that
    exists and a body that is a non-empty object with the key [isbn],
    the record the handler commits carries the isbn of the body,
    whatever the other rows hold; the outcome is the 200 envelope with
    that record, or the IntegrityError of the commit when a constraint
    of the table refuses the row; and whatever the request, the
    outcome is never the 400 "ISBN already exists" of the create
    handler. *)
Theorem update_book_no_isbn_check (id : Z) (d : dict) (tbl : table) (old : Book.t) :
  query_get tbl id = Some old ->
  contains (d_isbn d) = true ->
  Book.isbn (assign old d) = get (d_isbn d) /\
  (update_book id (JsonObject d) tbl =
     (Response (Single "Book updated successfully" (Book.to_dict (assign old d))) 200,
      replace_row id (assign old d) tbl) \/
   update_book id (JsonObject d) tbl = (Raise IntegrityError, tbl)) /\
  (forall id' body' tbl' s,
     fst (update_book id' body' tbl') <> Response (Error "ISBN already exists") s).
Proof.
  intros Hold Hisbn. split; [|split].
  - destruct (assign_fields old d) as [_ [_ [_ [_ [_ Hi]]]]].
    rewrite Hi, Hisbn. reflexivity.
  - rewrite (update_book_object id d tbl old Hold).
    assert (not_ (Some d) = false) as ->.
    { unfold not_, dict_is_empty. rewrite Hisbn.
      rewrite !andb_false_r. reflexivity. }
    destruct (negb (not_null (assign old d)) || _); auto.
  - intros id' body' tbl' s. unfold update_book.
    destruct (query_get tbl' id'); [|cbn; discriminate].
    destruct (get_json body') as [st|data]; [cbn; discriminate|].
    destruct (not_ data); [cbn; discriminate|].
    destruct data as [d'|]; [|cbn; discriminate].
    destruct (update_commit tbl' id' _); cbn; discriminate.
Qed.

Lemma update_book_no_isbn_check_witness :
  query_get (init_db noon) 1 = Some python_crash_course /\
  contains (d_isbn (only_isbn "978-0132350884")) = true /\
  Book.isbn (assign python_crash_course (only_isbn "978-0132350884"))
    = Some "978-0132350884" /\
  update_book 1 (JsonObject (only_isbn "978-0132350884")) (init_db noon)
    = (Raise IntegrityError, init_db noon) /\
  update_book 1 (JsonObject (only_isbn "978-0000000000")) (init_db noon)
    = (Response (Single "Book updated successfully"
                   (Book.to_dict (assign python_crash_course
                                         (only_isbn "978-0000000000")))) 200,
       replace_row 1 (assign python_crash_course (only_isbn "978-0000000000"))
                   (init_db noon)).
Proof.
  split; [reflexivity|]. split; [reflexivity|].
  destruct (update_book_no_isbn_check 1 (only_isbn "978-0132350884") (init_db noon)
              python_crash_course eq_refl eq_refl) as [Hisbn [[Hok|Hraise] _]].
  - discriminate Hok.
  - split; [exact Hisbn|]. split; [exact Hraise|].
    destruct (update_book_no_isbn_check 1 (only_isbn "978-0000000000") (init_db noon)
                python_crash_course eq_refl eq_refl) as [_ [[Hok|Hraise'] _]].
    + exact Hok.
    + discriminate Hraise'.
Defined.

(** C10: the existence check comes first. When no record has the id
    of the path the answer is 404 "Book not found" and the table is
    untouched, whatever the body, also one that is null or does not
    parse; and an update answered with status 400 was sent for a
    record that exists. *)
Theorem update_book_not_found_first (id : Z) (body : payload) (tbl : table) :
  (query_get tbl id = None ->
   update_book id body tbl = (Response (Error "Book not found") 404, tbl)) /\
  (status_code (fst (update_book id body tbl)) = 400 ->
   exists book, query_get tbl id = Some book).
Proof.
  unfold update_book. destruct (query_get tbl id) as [book|].
  - split; [discriminate|]. intros _. exists book. reflexivity.
  - split; [reflexivity|]. cbn. discriminate.
Qed.

(** C6: the request at which the code leaves the claim. The sample
    table has a title and an author in every row; an update of book 1
    with the body [{"title": ""}] is answered 200, and the row it
    leaves has the empty string as title. *)
Theorem update_book_blank_title :
  forallb named (init_db noon) = true /\
  fst (update_book 1 (JsonObject (only_title "")) (init_db noon)) =
    Response (Single "Book updated successfully"
                (Book.mkjson 1 (Some "") (Some "Eric Matthes") (Some 2019)
                             (Some "978-1593279288") (Some "2024-01-15T12:00:00")))
             200 /\
  option_map Book.title
    (query_get (snd (update_book 1 (JsonObject (only_title "")) (init_db noon))) 1)
    = Some (Some "") /\
  forallb named (snd (update_book 1 (JsonObject (only_title "")) (init_db noon)))
    = false.
Proof. repeat split. Qed.

(** Create and delete do keep a title and an author in every row. *)
Lemma create_book_named (now : datetime) (body : payload) (tbl : table) :
  forallb named tbl = true ->
  forallb named (snd (create_book now body tbl)) = true.
Proof.
  intros H. destruct body as [| |d]; [exact H | exact H |].
  rewrite create_book_object.
  destruct (not_ (Some d)); [exact H|].
  destruct (truthy (get (d_title d))) eqn:Tt; [|exact H].
  destruct (truthy (get (d_author d))) eqn:Ta; [|exact H].
  cbn [negb orb].
  destruct (truthy (get (d_isbn d)) && _); [exact H|].
  unfold add_commit.
  destruct (negb _ || _); [exact H|]. cbn [snd].
  rewrite forallb_app, H. cbn. unfold named. cbn. rewrite Tt, Ta. reflexivity.
Qed.

Lemma delete_book_named (id : Z) (tbl : table) :
  forallb named tbl = true ->
  forallb named (snd (delete_book id tbl)) = true.
Proof.
  intros H. unfold delete_book. destruct (query_get tbl id); [|exact H].
  cbn [snd]. unfold delete_commit. rewrite forallb_forall in *.
  intros b Hb. apply filter_In in Hb. apply H. tauto.
Qed.

(** ** Search *)

Lemma filter_filter {A : Type} (f g : A -> bool) (l : list A) :
  filter f (filter g l) = filter (fun x => g x && f x) l.
Proof.
  induction l as [|x l IH]; cbn; [reflexivity|].
  destruct (g x); cbn; [destruct (f x)|]; now rewrite IH.
Qed.

Lemma search_books_filters (a : args) (tbl : table) :
  search_books a tbl =
  match year_arg a with
  | None => Raise ValueError
  | Some n =>
    Response
      (Found
         (Z.of_nat (List.length
            (filter (fun b =>
               (match args_get a "q" with
                | Some t => if truthy (Some t)
                            then ilike (Book.title b) ("%" ++ t ++ "%")%string
                            else true
                | None => true
                end) &&
               (match args_get a "author" with
                | Some t => if truthy (Some t)
                            then ilike (Book.author b) ("%" ++ t ++ "%")%string
                            else true
                | None => true
                end) &&
               year_wanted n b) tbl)))
         (map Book.to_dict
            (filter (fun b =>
               (match args_get a "q" with
                | Some t => if truthy (Some t)
                            then ilike (Book.title b) ("%" ++ t ++ "%")%string
                            else true
                | None => true
                end) &&
               (match args_get a "author" with
                | Some t => if truthy (Some t)
                            then ilike (Book.author b) ("%" ++ t ++ "%")%string
                            else true
                | None => true
                end) &&
               year_wanted n b) tbl)))
      200
  end.
Proof.
  assert (forall (l : list Book.t), filter (fun _ => true) l = l) as Hall.
  { induction l as [|x l IH]; cbn; [reflexivity | now rewrite IH]. }
  unfold search_books, year_arg.
  set (ft := fun b : Book.t =>
               match args_get a "q" with
               | Some t => if truthy (Some t)
                           then ilike (Book.title b) ("%" ++ t ++ "%")%string
                           else true
               | None => true
               end).
  set (fa := fun b : Book.t =>
               match args_get a "author" with
               | Some t => if truthy (Some t)
                           then ilike (Book.author b) ("%" ++ t ++ "%")%string
                           else true
               | None => true
               end).
  assert (match args_get a "q" with
          | Some t => if truthy (args_get a "q")
                      then filter (fun b => ilike (Book.title b) ("%" ++ t ++ "%")%string) tbl
                      else tbl
          | None => tbl
          end = filter ft tbl) as ->.
  { subst ft. destruct (args_get a "q") as [t|]; [|now rewrite Hall].
    destruct (truthy (Some t)); [reflexivity | now rewrite Hall]. }
  assert (match args_get a "author" with
          | Some t => if truthy (args_get a "author")
                      then filter (fun b => ilike (Book.author b) ("%" ++ t ++ "%")%string)
                                  (filter ft tbl)
                      else filter ft tbl
          | None => filter ft tbl
          end = filter (fun b => ft b && fa b) tbl) as ->.
  { rewrite <- filter_filter. subst fa.
    destruct (args_get a "author") as [t|]; [|now rewrite Hall].
    destruct (truthy (Some t)); [reflexivity | now rewrite Hall]. }
  destruct (args_get a "year") as [y|]; cbn [year_wanted].
  - destruct (truthy (Some y)).
    + destruct (int y) as [n|]; cbn [option_map year_wanted]; [|reflexivity].
      rewrite filter_filter. reflexivity.
    + cbn [year_wanted]. rewrite <- (filter_filter (fun _ => true)), Hall. reflexivity.
  - rewrite <- (filter_filter (fun _ => true)), Hall. reflexivity.
Qed.

(** Every book of a search result is a row of the table. *)
Lemma search_books_rows (a : args) (tbl : table) (env : envelope) (s : Z) :
  search_books a tbl = Response env s ->
  forall j, In j (books_of env) -> exists b, In b tbl /\ j = Book.to_dict b.
Proof.
  rewrite search_books_filters. destruct (year_arg a) as [n|]; [|discriminate].
  intros [= <- <-] j Hj. cbn [books_of] in Hj.
  apply in_map_iff in Hj. destruct Hj as [b [<- Hb]].
  apply filter_In in Hb. exists b. split; [tauto | reflexivity].
Qed.

(** *** LIKE on a text without wildcards *)

Lemma like_percent (q s : string) :
  like (String "%" q) s =
  like q s || match s with
              | EmptyString => false
              | String _ s' => like (String "%" q) s'
              end.
Proof. destruct s; reflexivity. Qed.

Lemma like_any (s : string) : like "%" s = true.
Proof.
  induction s as [|c s IH]; [reflexivity|].
  rewrite like_percent, IH. apply orb_true_r.
Qed.

Lemma like_plain_char (c : ascii) (p s : string) :
  (c =? "%")%char = false -> (c =? "_")%char = false ->
  like (String c p) s =
  match s with
  | EmptyString => false
  | String d s' => (c =? d)%char && like p s'
  end.
Proof. intros H1 H2. cbn [like]. rewrite H1, H2. reflexivity. Qed.

Lemma like_prefix (p s : string) :
  plain p = true -> like (p ++ "%") s = starts_with p s.
Proof.
  revert s. induction p as [|c p IH]; intros s Hp.
  - apply like_any.
  - cbn [plain] in Hp. apply andb_prop in Hp. destruct Hp as [Hc Hp].
    apply andb_prop in Hc. destruct Hc as [H1 H2].
    apply negb_true_iff in H1, H2.
    cbn [String.append]. rewrite (like_plain_char c _ s H1 H2).
    destruct s as [|d s]; cbn [starts_with]; [reflexivity|].
    rewrite IH by exact Hp. reflexivity.
Qed.

Lemma like_infix (p s : string) :
  plain p = true -> like ("%" ++ p ++ "%") s = infix p s.
Proof.
  intros Hp. change ("%" ++ p ++ "%")%string with (String "%" (p ++ "%")).
  induction s as [|c s IH]; rewrite like_percent, (like_prefix p _ Hp);
    cbn [infix]; [reflexivity|].
  rewrite IH. reflexivity.
Qed.

Lemma lower_app (s t : string) : lower (s ++ t) = (lower s ++ lower t)%string.
Proof. induction s as [|c s IH]; cbn; [reflexivity | now rewrite IH]. Qed.

Lemma lower_char_wildcard (c w : ascii) :
  w = "%"%char \/ w = "_"%char ->
  (lower_char c =? w)%char = (c =? w)%char.
Proof.
  intros Hw. destruct (Ascii.eqb_spec c w) as [->|Hne].
  - destruct Hw as [-> | ->]; reflexivity.
  - apply Ascii.eqb_neq. intros Heq. apply Hne.
    unfold lower_char in Heq.
    destruct ((65 <=? N_of_ascii c)%N && (N_of_ascii c <=? 90)%N) eqn:E;
      [|exact Heq].
    exfalso. apply andb_prop in E. destruct E as [E1 E2].
    apply N.leb_le in E1, E2.
    assert (N_of_ascii (ascii_of_N (N_of_ascii c + 32)) = (N_of_ascii c + 32)%N) as Hn
        by (apply N_ascii_embedding; lia).
    rewrite Heq in Hn. destruct Hw as [-> | ->]; cbn in Hn; lia.
Qed.

Lemma plain_lower (s : string) : plain (lower s) = plain s.
Proof.
  induction s as [|c s IH]; [reflexivity|]. cbn [lower plain].
  rewrite IH, !lower_char_wildcard by auto. reflexivity.
Qed.

(** On a text without [%] and [_] the filter of the search is the
    case-insensitive substring test. *)
Lemma ilike_plain (t : string) (v : option string) :
  plain t = true ->
  ilike v ("%" ++ t ++ "%")%string = contains_text t v.
Proof.
  intros Hp. destruct v as [s|]; [|reflexivity]. unfold ilike, contains_text.
  change ("%" ++ t ++ "%")%string with (String "%" (t ++ "%")).
  cbn [lower]. rewrite lower_app.
  change (String (lower_char "%") (lower t ++ lower "%"))%string
    with ("%" ++ lower t ++ "%")%string.
  apply like_infix. rewrite plain_lower. exact Hp.
Qed.

(** [infix] is the substring relation. *)
Lemma starts_with_spec (p s : string) :
  starts_with p s = true <-> exists post, s = (p ++ post)%string.
Proof.
  revert s. induction p as [|c p IH]; intros s; cbn [starts_with].
  - split; [intros _; exists s; reflexivity | reflexivity].
  - destruct s as [|d s].
    + split; [discriminate | intros [post H]; discriminate].
    + rewrite andb_true_iff, Ascii.eqb_eq, IH. split.
      * intros [-> [post ->]]. exists post. reflexivity.
      * intros [post H]. cbn in H. injection H as -> ->.
        split; [reflexivity | exists post; reflexivity].
Qed.

Lemma infix_spec (p s : string) :
  infix p s = true <-> exists pre post, s = (pre ++ p ++ post)%string.
Proof.
  induction s as [|c s IH]; cbn [infix]; rewrite orb_true_iff, starts_with_spec.
  - split.
    + intros [[post H]|H]; [|discriminate]. exists "", post. exact H.
    + intros [pre [post H]]. left. destruct pre as [|x pre]; [|discriminate].
      exists post. exact H.
  - rewrite IH. split.
    + intros [[post H]|[pre [post H]]].
      * exists "", post. exact H.
      * exists (String c pre), post. cbn. now rewrite H.
    + intros [pre [post H]]. destruct pre as [|x pre].
      * left. exists post. exact H.
      * right. cbn in H. injection H as _ H. exists pre, post. exact H.
Qed.

(** The search on parameters that hold no wildcard and a year that
    reads as an integer: HTTP 200 with exactly the rows that pass every
    filter supplied, in storage order and unpaged, and their number
    as [count]. *)
Lemma search_books_plain (a : args) (tbl : table) (n : option Z) :
  (forall t, args_get a "q" = Some t -> plain t = true) ->
  (forall t, args_get a "author" = Some t -> plain t = true) ->
  year_arg a = Some n ->
  exists books,
    books = filter (fun b => text_wanted (args_get a "q") (Book.title b) &&
                             text_wanted (args_get a "author") (Book.author b) &&
                             year_wanted n b) tbl /\
    search_books a tbl =
    Response (Found (Z.of_nat (List.length books)) (map Book.to_dict books)) 200.
Proof.
  intros Hq Ha Hy. eexists. split; [reflexivity|].
  rewrite search_books_filters, Hy.
  assert (forall b,
            (match args_get a "q" with
             | Some t => if truthy (Some t)
                         then ilike (Book.title b) ("%" ++ t ++ "%")%string
                         else true
             | None => true
             end) &&
            (match args_get a "author" with
             | Some t => if truthy (Some t)
                         then ilike (Book.author b) ("%" ++ t ++ "%")%string
                         else true
             | None => true
             end) && year_wanted n b =
            text_wanted (args_get a "q") (Book.title b) &&
            text_wanted (args_get a "author") (Book.author b) && year_wanted n b) as Hf.
  { intros b. unfold text_wanted.
    destruct (args_get a "q") as [t|], (args_get a "author") as [u|];
      try rewrite (ilike_plain t) by (apply Hq; reflexivity);
      try rewrite (ilike_plain u) by (apply Ha; reflexivity); reflexivity. }
  rewrite (filter_ext _ _ Hf). reflexivity.
Qed.

(** C5: two requests at which the code leaves the claim. A [year]
    that is not an integer is not answered with a success envelope:
    [int(year)] raises ValueError and the request ends in HTTP 500.
    And [q=_] is not matched as a substring: no sample title contains
    an underscore, yet all three books are returned, since LIKE reads
    the underscore as a wildcard. *)
Theorem search_books_failures :
  search_books [("year", "abc")] (init_db noon) = Raise ValueError /\
  status_code (search_books [("year", "abc")] (init_db noon)) = 500 /\
  filter (fun b => contains_text "_" (Book.title b)) (init_db noon) = [] /\
  search_books [("q", "_")] (init_db noon) =
  Response (Found 3 (map Book.to_dict (init_db noon))) 200.
Proof. repeat split. Qed.

(** ** Delete *)

Lemma delete_commit_unique (tbl : table) (i : Z) (book : Book.t) :
  NoDup (map Book.id tbl) -> query_get tbl i = Some book ->
  exists before after,
    tbl = before ++ book :: after /\ delete_commit tbl i = before ++ after.
Proof.
  unfold query_get, delete_commit.
  induction tbl as [|r tbl IH]; cbn [map find filter]; [discriminate|].
  intros Hnd Hget. apply NoDup_cons_iff in Hnd. destruct Hnd as [Hnotin Hnd].
  destruct (Book.id r =? i) eqn:E; cbn [negb].
  - injection Hget as ->. exists [], tbl. split; [reflexivity|].
    cbn [app]. apply Z.eqb_eq in E.
    rewrite <- (filter_ext_in (fun _ => true)).
    + clear. induction tbl as [|x l IHl]; cbn; [reflexivity | now rewrite IHl].
    + intros b Hb. destruct (Book.id b =? i) eqn:Eb; [|reflexivity].
      exfalso. apply Hnotin. apply in_map_iff. exists b. split; [lia | exact Hb].
  - destruct (IH Hnd Hget) as [before [after [Htbl Hdel]]].
    exists (r :: before), after. cbn [app]. rewrite <- Htbl, Hdel. split; reflexivity.
Qed.

(** C8: delete. Without a record of that id the answer is 404 "Book
    not found" and the table is untouched. With one, the answer is the
    success envelope that holds a message and no record, and the table
    afterwards holds the rows of other ids and no others, in their
    order (with the ids unique, the table with that one row cut out);
    on that table no listing and no search returns a book of the id,
    and an update or another delete of the id is answered 404. *)
Theorem delete_book_contract (id : Z) (tbl : table) :
  (query_get tbl id = None ->
   delete_book id tbl = (Response (Error "Book not found") 404, tbl)) /\
  (forall book, query_get tbl id = Some book ->
   exists tbl',
     delete_book id tbl = (Response (Message "Book deleted successfully") 200, tbl') /\
     (forall b, In b tbl' <-> In b tbl /\ Book.id b <> id) /\
     (NoDup (map Book.id tbl) ->
      exists before after, tbl = before ++ book :: after /\ tbl' = before ++ after) /\
     (forall inherited a env s,
        get_books inherited a tbl' = Response env s ->
        forall j, In j (books_of env) -> Book.j_id j <> id) /\
     (forall a env s,
        search_books a tbl' = Response env s ->
        forall j, In j (books_of env) -> Book.j_id j <> id) /\
     (forall body,
        update_book id body tbl' = (Response (Error "Book not found") 404, tbl')) /\
     delete_book id tbl' = (Response (Error "Book not found") 404, tbl')).
Proof.
  split.
  - intros H. unfold delete_book. rewrite H. reflexivity.
  - intros book Hget. exists (delete_commit tbl id).
    destruct (query_get_some tbl id book Hget) as [_ Hid].
    assert (forall b, In b (delete_commit tbl id) <-> In b tbl /\ Book.id b <> id) as Hin.
    { intros b. unfold delete_commit. rewrite filter_In, negb_true_iff, Z.eqb_neq.
      reflexivity. }
    pose proof (query_get_delete_commit tbl id) as Hgone.
    split; [unfold delete_book; rewrite Hget, Hid; reflexivity|].
    split; [exact Hin|].
    split; [intros Hnd; apply delete_commit_unique; assumption|].
    split; [|split; [|split]].
    + intros inherited a env s H j Hj.
      destruct (get_books_rows inherited a _ env s H j Hj) as [b [Hb ->]].
      apply Hin in Hb. exact (proj2 Hb).
    + intros a env s H j Hj.
      destruct (search_books_rows a _ env s H j Hj) as [b [Hb ->]].
      apply Hin in Hb. exact (proj2 Hb).
    + intros body. unfold update_book. rewrite Hgone. reflexivity.
    + unfold delete_book. rewrite Hgone. reflexivity.
Qed.

(** ** The properties at work on the sample data *)

Lemma delete_book_contract_witness :
  delete_book 2 (init_db noon) =
  (Response (Message "Book deleted successfully") 200,
   [python_crash_course;
    Book.mk 3 (Some "Clean Code") (Some "Robert C. Martin")
            (Some 2008) (Some "978-0132350884") (Some noon)]) /\
  delete_book 2 (snd (delete_book 2 (init_db noon))) =
  (Response (Error "Book not found") 404, snd (delete_book 2 (init_db noon))).
Proof.
  split; [reflexivity|].
  destruct (proj2 (delete_book_contract 2 (init_db noon)) _ eq_refl)
    as [tbl' [Hdel [_ [_ [_ [_ [_ Hagain]]]]]]].
  injection Hdel as <-. exact Hagain.
Defined.




Lemma search_books_plain_witness :
  exists books,
    books = [Book.mk 3 (Some "Clean Code") (Some "Robert C. Martin")
                     (Some 2008) (Some "978-0132350884") (Some noon)] /\
    search_books [("q", "CODE"); ("author", "martin"); ("year", "2008")] (init_db noon) =
    Response (Found (Z.of_nat (List.length books)) (map Book.to_dict books)) 200.
Proof.
  destruct (search_books_plain
              [("q", "CODE"); ("author", "martin"); ("year", "2008")]
              (init_db noon) (Some 2008)) as [books [Hbooks Hresp]].
  - intros t [= <-]. reflexivity.
  - intros t [= <-]. reflexivity.
  - reflexivity.
  - exists books. split; [exact Hbooks | exact Hresp].
Defined.

Lemma create_book_named_witness :
  forallb named (snd (create_book noon (JsonObject dune) (init_db noon))) = true.
Proof. exact (create_book_named noon (JsonObject dune) (init_db noon) eq_refl). Defined.

Lemma delete_book_named_witness :
  forallb named (snd (delete_book 2 (init_db noon))) = true.
Proof. exact (delete_book_named 2 (init_db noon) eq_refl). Defined.

(** ** The constraints of the table *)

Lemma isbn_taken_spec (tbl : table) (i : Z) (v : option string) :
  isbn_taken tbl i v = false ->
  forall b s, In b tbl -> Book.id b <> i -> v = Some s -> Book.isbn b <> Some s.
Proof.
  intros Hfree b s Hb Hid -> Hs. unfold isbn_taken in Hfree.
  assert (existsb (fun r => negb (Book.id r =? i) && isbn_is s r) tbl = true) as E.
  { apply existsb_exists. exists b. split; [exact Hb|].
    unfold isbn_is. rewrite Hs, String.eqb_refl.
    assert ((Book.id b =? i) = false) as -> by lia. reflexivity. }
  congruence.
Qed.

Lemma replace_row_absent (tbl : table) (i : Z) (book : Book.t) :
  ~ In i (map Book.id tbl) -> replace_row i book tbl = tbl.
Proof.
  unfold replace_row. induction tbl as [|r tbl IH]; cbn; [reflexivity|].
  intros H. assert ((Book.id r =? i) = false) as -> by lia.
  rewrite IH by tauto. reflexivity.
Qed.

Lemma replace_row_ids (tbl : table) (i : Z) (book : Book.t) :
  Book.id book = i -> map Book.id (replace_row i book tbl) = map Book.id tbl.
Proof.
  intros Hid. unfold replace_row. rewrite map_map. apply map_ext.
  intros r. destruct (Z.eqb_spec (Book.id r) i); congruence.
Qed.

Lemma replace_row_isbns (tbl : table) (i : Z) (book : Book.t) :
  NoDup (map Book.id tbl) -> NoDup (isbns tbl) ->
  isbn_taken tbl i (Book.isbn book) = false ->
  NoDup (isbns (replace_row i book tbl)).
Proof.
  intros Hids Hisbns Hfree.
  pose proof (isbn_taken_spec tbl i _ Hfree) as Hother. clear Hfree.
  induction tbl as [|r tbl IH]; [constructor|].
  cbn [map] in Hids. apply NoDup_cons_iff in Hids. destruct Hids as [Hnotin Hids].
  assert (NoDup (isbns tbl)) as Htl by (exact (NoDup_app_remove_l _ _ Hisbns)).
  assert (forall s, Book.isbn r = Some s -> ~ In s (isbns tbl)) as Hhd.
  { intros s Hs. unfold isbns in Hisbns. cbn [flat_map] in Hisbns.
    rewrite Hs in Hisbns. cbn [app] in Hisbns.
    apply NoDup_cons_iff in Hisbns. exact (proj1 Hisbns). }
  unfold replace_row. cbn [map]. fold (replace_row i book tbl).
  destruct (Z.eqb_spec (Book.id r) i) as [E|E].
  - rewrite replace_row_absent by (rewrite <- E; exact Hnotin).
    unfold isbns. cbn [flat_map]. fold (isbns tbl).
    destruct (Book.isbn book) as [s|] eqn:Es; [|exact Htl].
    cbn [app]. constructor; [|exact Htl].
    rewrite in_isbns. intros [b [Hb Hbs]].
    apply (Hother b s); [right; exact Hb | | reflexivity | exact Hbs].
    intros Hbi. apply Hnotin. rewrite E, <- Hbi. apply in_map. exact Hb.
  - unfold isbns. cbn [flat_map]. fold (isbns (replace_row i book tbl)).
    destruct (Book.isbn r) as [s|] eqn:Es.
    + cbn [app]. constructor.
      * rewrite in_isbns. intros [b [Hb Hbs]].
        unfold replace_row in Hb. apply in_map_iff in Hb.
        destruct Hb as [b0 [Hb0 Hin]].
        destruct (Book.id b0 =? i).
        -- subst b. apply (Hother r s); [left; reflexivity | exact E | exact Hbs | exact Es].
        -- subst b0. apply (Hhd s eq_refl). apply in_isbns. exists b. auto.
      * apply IH; [exact Hids | exact Htl|].
        intros b s' Hb. apply Hother. right. exact Hb.
    + apply IH; [exact Hids | exact Htl|].
      intros b s' Hb. apply Hother. right. exact Hb.
Qed.

Lemma filter_ids (f : Book.t -> bool) (tbl : table) :
  NoDup (map Book.id tbl) -> NoDup (map Book.id (filter f tbl)).
Proof.
  induction tbl as [|r tbl IH]; cbn; [constructor|].
  intros H. apply NoDup_cons_iff in H. destruct H as [Hnotin H].
  destruct (f r); cbn; [|exact (IH H)].
  constructor; [|exact (IH H)].
  intros Hin. apply Hnotin. apply in_map_iff in Hin.
  destruct Hin as [b [Hb Hin]]. apply filter_In in Hin.
  apply in_map_iff. exists b. tauto.
Qed.

Lemma filter_isbns (f : Book.t -> bool) (tbl : table) :
  NoDup (isbns tbl) -> NoDup (isbns (filter f tbl)).
Proof.
  induction tbl as [|r tbl IH]; cbn; [constructor|].
  intros H. pose proof (NoDup_app_remove_l _ _ H) as Htl.
  destruct (f r); [|exact (IH Htl)].
  cbn [isbns flat_map]. fold (isbns (filter f tbl)).
  destruct (Book.isbn r) as [s|]; [|exact (IH Htl)].
  cbn [app] in *. apply NoDup_cons_iff in H. destruct H as [Hnotin _].
  constructor; [|exact (IH Htl)].
  intros Hin. apply Hnotin. apply in_isbns in Hin. destruct Hin as [b [Hb Hs]].
  apply filter_In in Hb. apply in_isbns. exists b. tauto.
Qed.

Lemma add_commit_constraints (now : datetime) (tbl tbl' : table)
    (t a : option string) (y : option Z) (i : option string) (new_book : Book.t) :
  constraints_hold tbl ->
  add_commit now tbl t a y i = inr (new_book, tbl') ->
  constraints_hold tbl'.
Proof.
  intros [Hids [Hisbns Hnn]]. unfold add_commit.
  destruct (negb _ || _) eqn:E; [discriminate|]. intros [= <- <-].
  apply orb_false_elim in E. destruct E as [Hnull Hfree].
  apply negb_false_iff in Hnull. cbn [Book.id] in Hfree.
  split; [|split].
  - rewrite map_app. apply NoDup_app; [exact Hids | repeat constructor; intros [] |].
    cbn [map In Book.id]. intros j Hj [<-|[]].
    apply in_map_iff in Hj. destruct Hj as [b [Hb Hin]].
    pose proof (next_id_fresh tbl b Hin). lia.
  - unfold isbns. rewrite flat_map_app. fold (isbns tbl). cbn.
    destruct i as [s|]; [|rewrite app_nil_r; exact Hisbns].
    apply NoDup_app; [exact Hisbns | repeat constructor; intros [] |].
    intros s' Hs' [<-|[]]. apply in_isbns in Hs'.
    assert (isbn_taken tbl (next_id tbl) (Some s) = true) as T
        by (apply isbn_taken_fresh; exists s; auto).
    congruence.
  - rewrite forallb_app, Hnn. cbn [forallb andb]. rewrite Hnull. reflexivity.
Qed.

(** The storage invariants of the data model: in the sample table, and
    after every create, update and delete on a table in which they
    hold, no two records share an id, no two records share a non-null
    isbn, and no record lacks a title or an author. *)
Lemma requests_keep_constraints
    (now : datetime) (id : Z) (body : payload) (tbl : table) :
  constraints_hold tbl ->
  constraints_hold (snd (create_book now body tbl)) /\
  constraints_hold (snd (update_book id body tbl)) /\
  constraints_hold (snd (delete_book id tbl)).
Proof.
  intros H. split; [|split].
  - destruct body as [| |d]; [exact H | exact H |].
    rewrite create_book_object.
    destruct (not_ (Some d)); [exact H|].
    destruct (negb _ || negb _); [exact H|].
    destruct (truthy (get (d_isbn d)) && _); [exact H|].
    destruct (add_commit now tbl _ _ _ _) as [e|[new_book tbl']] eqn:E; [exact H|].
    exact (add_commit_constraints _ _ _ _ _ _ _ _ H E).
  - unfold update_book. destruct (query_get tbl id) as [old|] eqn:Hold; [|exact H].
    destruct (get_json body) as [st|data]; [exact H|].
    destruct (not_ data); [exact H|]. destruct data as [d|]; [|exact H].
    unfold update_commit. destruct (negb _ || _) eqn:E; [exact H|]. cbn [snd].
    apply orb_false_elim in E. destruct E as [Hnull Hfree].
    apply negb_false_iff in Hnull. destruct H as [Hids [Hisbns Hnn]].
    fold (replace_row id (assign old d) tbl).
    assert (Book.id (assign old d) = id) as Hid.
    { rewrite (proj1 (assign_fields old d)).
      exact (proj2 (query_get_some tbl id old Hold)). }
    split; [|split].
    + rewrite replace_row_ids by exact Hid. exact Hids.
    + apply replace_row_isbns; assumption.
    + unfold replace_row. rewrite forallb_forall in *. intros b Hb.
      apply in_map_iff in Hb. destruct Hb as [r [Hr Hin]].
      destruct (Book.id r =? id); [subst b; exact Hnull | subst r; exact (Hnn b Hin)].
  - unfold delete_book. destruct (query_get tbl id) as [old|]; [|exact H].
    cbn [snd]. unfold delete_commit. destruct H as [Hids [Hisbns Hnn]].
    split; [apply filter_ids; exact Hids|].
    split; [apply filter_isbns; exact Hisbns|].
    rewrite forallb_forall in *. intros b Hb. apply filter_In in Hb.
    apply Hnn. tauto.
Qed.

Lemma init_db_constraints (now : datetime) : constraints_hold (init_db now).
Proof.
  split; [|split; [apply init_db_isbns | reflexivity]].
  cbn. repeat constructor; cbn; intuition discriminate.
Qed.

Lemma requests_keep_constraints_witness :
  constraints_hold (snd (create_book noon (JsonObject dune) (init_db noon))) /\
  constraints_hold (snd (update_book 2 (JsonObject dune) (init_db noon))) /\
  constraints_hold (snd (delete_book 2 (init_db noon))).
Proof.
  exact (requests_keep_constraints noon 2 (JsonObject dune) (init_db noon)
           (init_db_constraints noon)).
Defined.

(** ** Create, then read *)

Lemma query_get_app_fresh (tbl : table) (new_book : Book.t) :
  query_get tbl (Book.id new_book) = None ->
  query_get (tbl ++ [new_book]) (Book.id new_book) = Some new_book.
Proof.
  unfold query_get. induction tbl as [|r tbl IH]; cbn.
  - intros _. rewrite Z.eqb_refl. reflexivity.
  - destruct (Book.id r =? Book.id new_book); [discriminate | exact IH].
Qed.

(** A record that was created is there: after a 201 the table holds
    the serialized record under an id that no record had before, with
    the time of the request as [created_at], and every record that was
    there is found as before. *)
Lemma create_book_then_get
    (now : datetime) (body : payload) (tbl tbl' : table) (env : envelope) :
  create_book now body tbl = (Response env 201, tbl') ->
  exists new_book,
    env = Single "Book created successfully" (Book.to_dict new_book) /\
    query_get tbl (Book.id new_book) = None /\
    query_get tbl' (Book.id new_book) = Some new_book /\
    Book.created_at new_book = Some now /\
    (forall b, In b tbl -> In b tbl').
Proof.
  destruct body as [| |d]; [discriminate | discriminate |].
  rewrite create_book_object.
  destruct (not_ (Some d)); [discriminate|].
  destruct (negb _ || negb _); [discriminate|].
  destruct (truthy (get (d_isbn d)) && _); [discriminate|].
  unfold add_commit. destruct (negb _ || _); [discriminate|].
  intros [= <- <-]. eexists. split; [reflexivity|].
  assert (query_get tbl (next_id tbl) = None) as Hfresh.
  { apply query_get_none. intros b Hb. pose proof (next_id_fresh tbl b Hb). lia. }
  split; [exact Hfresh|]. split; [|split; [reflexivity|]].
  - apply (query_get_app_fresh tbl (Book.mk (next_id tbl) _ _ _ _ _)). exact Hfresh.
  - intros b Hb. apply in_or_app. left. exact Hb.
Qed.

Lemma create_book_then_get_witness :
  exists new_book,
    fst (create_book noon (JsonObject dune) (init_db noon)) =
      Response (Single "Book created successfully" (Book.to_dict new_book)) 201 /\
    query_get (snd (create_book noon (JsonObject dune) (init_db noon)))
              (Book.id new_book) = Some new_book /\
    Book.created_at new_book = Some noon.
Proof.
  destruct (create_book_then_get noon (JsonObject dune) (init_db noon) _ _ eq_refl)
    as [new_book [Henv [_ [Hget [Hcreated _]]]]].
  exists new_book. split; [rewrite <- Henv; reflexivity|].
  split; [exact Hget | exact Hcreated].
Defined.

(** The example of the catalog: "Dune" by Herbert is created in an
    empty catalog as record 1 with neither year nor isbn, and a search
    for "dun" then returns that one record. *)
Lemma create_dune_then_search :
  create_book noon (JsonObject dune) [] =
    (Response (Single "Book created successfully"
                 (Book.mkjson 1 (Some "Dune") (Some "Herbert") None None
                              (Some "2024-01-15T12:00:00"))) 201,
     [Book.mk 1 (Some "Dune") (Some "Herbert") None None (Some noon)]) /\
  search_books [("q", "dun")] (snd (create_book noon (JsonObject dune) [])) =
    Response (Found 1 [Book.mkjson 1 (Some "Dune") (Some "Herbert") None None
                                   (Some "2024-01-15T12:00:00")]) 200.
Proof. split; reflexivity. Qed.

(** * Further properties of the catalog *)

(** ** Requests that fail *)

(** A create, update or delete that is not answered with a [success]
    envelope has changed nothing: the table after the request is the
    table before it. *)
Lemma failed_request_leaves_table
    (now : datetime) (id : Z) (body : payload) (tbl : table) :
  (succeeded (fst (create_book now body tbl)) = false ->
   snd (create_book now body tbl) = tbl) /\
  (succeeded (fst (update_book id body tbl)) = false ->
   snd (update_book id body tbl) = tbl) /\
  (succeeded (fst (delete_book id tbl)) = false ->
   snd (delete_book id tbl) = tbl).
Proof.
  split; [|split].
  - destruct body as [| |d]; [reflexivity | reflexivity |].
    rewrite create_book_object.
    destruct (not_ (Some d)); [reflexivity|].
    destruct (negb _ || negb _); [reflexivity|].
    destruct (truthy (get (d_isbn d)) && _); [reflexivity|].
    destruct (add_commit now tbl _ _ _ _) as [e|[new_book tbl']]; [reflexivity|].
    cbn. discriminate.
  - unfold update_book. destruct (query_get tbl id) as [old|]; [|reflexivity].
    destruct (get_json body) as [st|data]; [reflexivity|].
    destruct (not_ data); [reflexivity|]. destruct data as [d|]; [|reflexivity].
    destruct (update_commit tbl id _) as [e|tbl']; [reflexivity|].
    cbn. discriminate.
  - unfold delete_book. destruct (query_get tbl id) as [old|]; [|reflexivity].
    cbn. discriminate.
Qed.

(** ** The same update, twice *)

Lemma assign_again (book : Book.t) (d : dict) :
  assign (assign book d) d = assign book d.
Proof.
  destruct book as [i t a y n c]. unfold assign, getitem.
  destruct (contains (d_title d)), (contains (d_author d)),
           (contains (d_year d)), (contains (d_isbn d)); reflexivity.
Qed.

Lemma replace_row_again (tbl : table) (i : Z) (book : Book.t) :
  Book.id book = i ->
  replace_row i book (replace_row i book tbl) = replace_row i book tbl.
Proof.
  intros Hid. unfold replace_row. rewrite map_map. apply map_ext. intros r.
  destruct (Z.eqb_spec (Book.id r) i) as [E|E].
  - rewrite Hid, Z.eqb_refl. reflexivity.
  - assert ((Book.id r =? i) = false) as -> by lia. reflexivity.
Qed.

Lemma isbn_taken_replace_row (tbl : table) (i : Z) (book : Book.t) (v : option string) :
  Book.id book = i ->
  isbn_taken (replace_row i book tbl) i v = isbn_taken tbl i v.
Proof.
  intros Hid. unfold isbn_taken, replace_row. destruct v as [s|]; [|reflexivity].
  induction tbl as [|r tbl IH]; [reflexivity|]. cbn [map existsb]. rewrite IH.
  f_equal. destruct (Book.id r =? i) eqn:E; [|rewrite E; reflexivity].
  rewrite Hid, Z.eqb_refl. reflexivity.
Qed.

(** An update that succeeded can be sent again: the second request is
    answered like the first and leaves the table as the first left
    it. *)
Lemma update_book_twice
    (id : Z) (body : payload) (tbl tbl' : table) (env : envelope) :
  update_book id body tbl = (Response env 200, tbl') ->
  update_book id body tbl' = (Response env 200, tbl').
Proof.
  intros H. destruct (query_get tbl id) as [old|] eqn:Hold.
  2:{ unfold update_book in H. rewrite Hold in H. discriminate. }
  destruct body as [| |d].
  - unfold update_book in H. rewrite Hold in H. discriminate.
  - unfold update_book in H. rewrite Hold in H. discriminate.
  - rewrite (update_book_object id d tbl old Hold) in H.
    destruct (not_ (Some d)) eqn:Hnot; [discriminate|].
    destruct (negb (not_null (assign old d)) || _) eqn:Hc; [discriminate|].
    injection H as <- <-.
    assert (Book.id (assign old d) = id) as Hid.
    { rewrite (proj1 (assign_fields old d)).
      exact (proj2 (query_get_some tbl id old Hold)). }
    rewrite (update_book_object id d _ (assign old d)
               (query_get_replace_row tbl id old _ Hold Hid)).
    rewrite Hnot, assign_again, isbn_taken_replace_row, Hc by exact Hid.
    rewrite replace_row_again by exact Hid. reflexivity.
Qed.

Lemma update_book_twice_witness :
  update_book 1 (JsonObject (only_year 2020))
              (snd (update_book 1 (JsonObject (only_year 2020)) (init_db noon))) =
  (Response (Single "Book updated successfully"
               (Book.to_dict (assign python_crash_course (only_year 2020)))) 200,
   snd (update_book 1 (JsonObject (only_year 2020)) (init_db noon))).
Proof.
  exact (update_book_twice 1 (JsonObject (only_year 2020)) (init_db noon)
           (snd (update_book 1 (JsonObject (only_year 2020)) (init_db noon)))
           (Single "Book updated successfully"
                   (Book.to_dict (assign python_crash_course (only_year 2020))))
           eq_refl).
Defined.

(** ** Create, then delete *)

Lemma delete_commit_newest (tbl : table) (new_book : Book.t) :
  Book.id new_book = next_id tbl ->
  delete_commit (tbl ++ [new_book]) (Book.id new_book) = tbl.
Proof.
  intros Hid. unfold delete_commit. rewrite filter_app. cbn [filter].
  rewrite Z.eqb_refl. cbn [negb]. rewrite app_nil_r.
  rewrite <- (filter_ext_in (fun _ => true)).
  - clear. induction tbl as [|x l IHl]; cbn; [reflexivity | now rewrite IHl].
  - intros b Hb. pose proof (next_id_fresh tbl b Hb).
    assert ((Book.id b =? Book.id new_book) = false) as -> by lia. reflexivity.
Qed.

Lemma create_book_created
    (now : datetime) (body : payload) (tbl tbl' : table) (env : envelope) :
  create_book now body tbl = (Response env 201, tbl') ->
  exists d new_book,
    body = JsonObject d /\
    truthy (get (d_title d)) = true /\ truthy (get (d_author d)) = true /\
    new_book = Book.mk (next_id tbl) (get (d_title d)) (get (d_author d))
                       (get (d_year d)) (get (d_isbn d)) (Some now) /\
    env = Single "Book created successfully" (Book.to_dict new_book) /\
    tbl' = tbl ++ [new_book].
Proof.
  destruct body as [| |d]; [discriminate | discriminate |].
  rewrite create_book_object.
  destruct (not_ (Some d)); [discriminate|].
  destruct (truthy (get (d_title d))) eqn:Tt; [|discriminate].
  destruct (truthy (get (d_author d))) eqn:Ta; [|discriminate]. cbn [negb orb].
  destruct (truthy (get (d_isbn d)) && _); [discriminate|].
  unfold add_commit. destruct (negb _ || _); [discriminate|].
  intros [= <- <-]. exists d. eexists.
  split; [reflexivity|]. split; [exact Tt|]. split; [exact Ta|].
  split; [reflexivity|]. split; reflexivity.
Qed.

(** Deleting the record a create has just made gives back the table
    as it was before the create, and the id is free again: the next
    record created gets the same id. *)
Lemma create_then_delete
    (now : datetime) (body : payload) (tbl tbl' : table) (env : envelope) :
  create_book now body tbl = (Response env 201, tbl') ->
  exists new_book,
    env = Single "Book created successfully" (Book.to_dict new_book) /\
    delete_book (Book.id new_book) tbl' =
      (Response (Message "Book deleted successfully") 200, tbl) /\
    (forall now2 body2 env2 tbl2,
       create_book now2 body2 (snd (delete_book (Book.id new_book) tbl')) =
         (Response env2 201, tbl2) ->
       exists again,
         env2 = Single "Book created successfully" (Book.to_dict again) /\
         Book.id again = Book.id new_book).
Proof.
  intros H. destruct (create_book_created _ _ _ _ _ H)
    as [d [new_book [_ [_ [_ [Hnew [Henv Htbl]]]]]]].
  assert (Book.id new_book = next_id tbl) as Hid by (rewrite Hnew; reflexivity).
  assert (delete_book (Book.id new_book) tbl' =
          (Response (Message "Book deleted successfully") 200, tbl)) as Hdel.
  { unfold delete_book. rewrite Htbl.
    rewrite (query_get_app_fresh tbl new_book).
    - rewrite (delete_commit_newest tbl new_book Hid). reflexivity.
    - apply query_get_none. intros b Hb. pose proof (next_id_fresh tbl b Hb). lia. }
  exists new_book. split; [exact Henv|]. split; [exact Hdel|].
  intros now2 body2 env2 tbl2. rewrite Hdel. cbn [snd]. intros H2.
  destruct (create_book_created _ _ _ _ _ H2)
    as [d2 [again [_ [_ [_ [Hagain [Henv2 _]]]]]]].
  exists again. split; [exact Henv2|]. rewrite Hagain, Hid. reflexivity.
Qed.

Lemma create_then_delete_witness :
  exists new_book,
    fst (create_book noon (JsonObject dune) (init_db noon)) =
      Response (Single "Book created successfully" (Book.to_dict new_book)) 201 /\
    delete_book (Book.id new_book)
                (snd (create_book noon (JsonObject dune) (init_db noon))) =
      (Response (Message "Book deleted successfully") 200, init_db noon).
Proof.
  destruct (create_then_delete noon (JsonObject dune) (init_db noon) _ _ eq_refl)
    as [new_book [Henv [Hdel _]]].
  exists new_book. split; [rewrite <- Henv; reflexivity | exact Hdel].
Defined.

(** ** Create, then search *)

Lemma starts_with_refl (s : string) : starts_with s s = true.
Proof.
  induction s as [|c s IH]; [reflexivity|]. cbn. rewrite Ascii.eqb_refl. exact IH.
Qed.

Lemma infix_refl (s : string) : infix s s = true.
Proof. destruct s; cbn [infix]; rewrite starts_with_refl; reflexivity. Qed.

(** A record that was created is found by its own title and author:
    when neither holds a [%] or a [_], the search for them returns the
    new record among its books. *)
Lemma create_then_search
    (now : datetime) (d : dict) (tbl tbl' : table) (env : envelope) (t a : string) :
  create_book now (JsonObject d) tbl = (Response env 201, tbl') ->
  get (d_title d) = Some t -> plain t = true ->
  get (d_author d) = Some a -> plain a = true ->
  exists new_book books,
    env = Single "Book created successfully" (Book.to_dict new_book) /\
    search_books [("q", t); ("author", a)] tbl' =
      Response (Found (Z.of_nat (List.length books)) (map Book.to_dict books)) 200 /\
    In new_book books.
Proof.
  intros H Ht Hpt Ha Hpa.
  destruct (create_book_created _ _ _ _ _ H)
    as [d' [new_book [Hd [Tt [Ta [Hnew [Henv Htbl]]]]]]].
  injection Hd as <-. rewrite Ht in *. rewrite Ha in *.
  exists new_book. eexists. split; [exact Henv|].
  rewrite search_books_filters. cbn [year_arg args_get String.eqb Ascii.eqb Bool.eqb].
  cbn [year_wanted]. split; [reflexivity|].
  apply filter_In. split; [rewrite Htbl; apply in_or_app; right; left; reflexivity|].
  rewrite Tt, Ta, (ilike_plain t _ Hpt), (ilike_plain a _ Hpa), Hnew.
  cbn [Book.title Book.author contains_text]. rewrite !infix_refl. reflexivity.
Qed.

Lemma create_then_search_witness :
  exists new_book books,
    fst (create_book noon (JsonObject dune) (init_db noon)) =
      Response (Single "Book created successfully" (Book.to_dict new_book)) 201 /\
    search_books [("q", "Dune"); ("author", "Herbert")]
                 (snd (create_book noon (JsonObject dune) (init_db noon))) =
      Response (Found (Z.of_nat (List.length books)) (map Book.to_dict books)) 200 /\
    In new_book books.
Proof.
  destruct (create_then_search noon dune (init_db noon) _ _ "Dune" "Herbert"
              eq_refl eq_refl eq_refl eq_refl eq_refl)
    as [new_book [books [Henv [Hsearch Hin]]]].
  exists new_book, books. split; [rewrite <- Henv; reflexivity|].
  split; [exact Hsearch | exact Hin].
Defined.

(** ** Numbers in the query string *)

Lemma digit_spec (n : Z) :
  0 <= n -> is_digit (digit n) = true /\ digit_value (digit n) = n mod 10.
Proof.
  intros Hn. pose proof (Z.mod_pos_bound n 10 ltac:(lia)) as Hb.
  unfold digit.
  assert (n mod 10 = 0 \/ n mod 10 = 1 \/ n mod 10 = 2 \/ n mod 10 = 3 \/
          n mod 10 = 4 \/ n mod 10 = 5 \/ n mod 10 = 6 \/ n mod 10 = 7 \/
          n mod 10 = 8 \/ n mod 10 = 9) as H by lia.
  repeat (destruct H as [H|H]; [rewrite H; split; reflexivity|]).
  rewrite H. split; reflexivity.
Qed.

Lemma digits_decimal_digits (fuel : nat) (n : Z) (acc : string) (b : bool) :
  0 <= n < Z.of_nat fuel ->
  digits 0 b (decimal_digits fuel n acc) = digits n true acc.
Proof.
  revert n acc b. induction fuel as [|fuel IH]; intros n acc b Hn; [lia|].
  destruct (digit_spec n ltac:(lia)) as [Hd Hv].
  cbn [decimal_digits]. destruct (Z.ltb_spec n 10) as [Hlt|Hge].
  - cbn [digits]. rewrite Hd, Hv. f_equal. rewrite Z.mod_small; lia.
  - rewrite IH.
    + cbn [digits]. rewrite Hd, Hv. f_equal.
      pose proof (Z.div_mod n 10 ltac:(lia)). lia.
    + split; [apply Z.div_pos; lia|].
      assert (n / 10 < n) by (apply Z.div_lt; lia). lia.
Qed.

Lemma decimal_digits_all_digits (fuel : nat) (n : Z) (acc : string) :
  0 <= n -> all_digits acc = true ->
  all_digits (decimal_digits (S fuel) n acc) = true /\
  exists c s, decimal_digits (S fuel) n acc = String c s.
Proof.
  revert n acc. induction fuel as [|fuel IH]; intros n acc Hn Hacc.
  - destruct (digit_spec n Hn) as [Hd _]. cbn [decimal_digits].
    destruct (n <? 10); cbn [all_digits]; rewrite ?Hd, ?Hacc; split; eauto.
  - destruct (digit_spec n Hn) as [Hd _].
    change (decimal_digits (S (S fuel)) n acc)
      with (if n <? 10 then String (digit n) acc
            else decimal_digits (S fuel) (n / 10) (String (digit n) acc)).
    destruct (n <? 10).
    + cbn [all_digits]. rewrite Hd, Hacc. split; eauto.
    + apply IH; [apply Z.div_pos; lia|]. cbn [all_digits]. rewrite Hd, Hacc.
      reflexivity.
Qed.

Lemma digit_not_space (c : ascii) : is_digit c = true -> is_space c = false.
Proof.
  unfold is_digit, is_space. intros H. apply andb_prop in H. destruct H as [H1 H2].
  apply N.leb_le in H1, H2.
  destruct (N.leb_spec 9 (N_of_ascii c)), (N.leb_spec (N_of_ascii c) 13),
           (N.leb_spec 28 (N_of_ascii c)), (N.leb_spec (N_of_ascii c) 32);
    cbn; try reflexivity; lia.
Qed.

Lemma rstrip_all_digits (s : string) : all_digits s = true -> rstrip s = s.
Proof.
  induction s as [|c s IH]; [reflexivity|]. cbn [all_digits rstrip]. intros H.
  apply andb_prop in H. destruct H as [Hc Hs]. rewrite (IH Hs).
  destruct s; [|reflexivity]. rewrite (digit_not_space c Hc). reflexivity.
Qed.

Lemma int_all_digits (c : ascii) (s : string) :
  all_digits (String c s) = true ->
  int (String c s) = digits 0 false (String c s).
Proof.
  intros H. unfold int.
  assert (lstrip (String c s) = String c s) as ->.
  { cbn [all_digits] in H. apply andb_prop in H. destruct H as [Hc _].
    cbn [lstrip]. rewrite (digit_not_space c Hc). reflexivity. }
  rewrite (rstrip_all_digits _ H).
  cbn [all_digits] in H. apply andb_prop in H. destruct H as [Hc _].
  destruct c as [[] [] [] [] [] [] [] []]; try discriminate Hc; reflexivity.
Qed.

Lemma int_minus_all_digits (s : string) :
  all_digits s = true ->
  int (String "-" s) = option_map Z.opp (digits 0 false s).
Proof.
  intros H. unfold int. cbn [lstrip]. change (is_space "-") with false. cbn iota.
  assert (rstrip (String "-" s) = String "-" s) as ->; [|reflexivity].
  cbn [rstrip]. rewrite (rstrip_all_digits s H). destruct s; reflexivity.
Qed.

(** The decimal text of an integer is read back by [int] as that
    integer: what the page puts into the query string is what the
    route receives. *)
Lemma int_decimal (z : Z) : int (decimal z) = Some z.
Proof.
  unfold decimal. destruct (Z.ltb_spec z 0) as [Hneg|Hpos].
  - destruct (decimal_digits_all_digits (Z.to_nat (- z)) (- z) "" ltac:(lia) eq_refl)
      as [Hall _].
    rewrite (int_minus_all_digits _ Hall), digits_decimal_digits by lia.
    cbn. f_equal. lia.
  - destruct (decimal_digits_all_digits (Z.to_nat z) z "" Hpos eq_refl)
      as [Hall [c [s Hs]]].
    rewrite Hs in *. rewrite (int_all_digits c s Hall), <- Hs.
    rewrite digits_decimal_digits by lia. reflexivity.
Qed.

(** A number the page writes into the query string arrives as that
    number: [request.args.get(key, default, type=int)] on the decimal
    text of [z] is [z], whatever the default and the parameters that
    follow. *)
Lemma query_number_round_trip (key : string) (z default : Z) (a : args) :
  args_get_int ((key, decimal z) :: a) key default = z /\
  args_get_int ((key, (" " ++ decimal z)%string) :: a) key default = z.
Proof.
  unfold args_get_int. cbn [args_get]. rewrite String.eqb_refl.
  split; [rewrite int_decimal; reflexivity|].
  assert (int (" " ++ decimal z) = int (decimal z)) as ->
      by reflexivity.
  rewrite int_decimal. reflexivity.
Qed.

Section ListRouteEdges.

Variable inherited : string -> bool.

(** A [page] or [per_page] that is missing or does not read as an
    integer is no error: the listing is the one for [page=1], and for
    [per_page=5]. *)
Lemma get_books_unreadable_numbers (a : args) (tbl : table) :
  (args_get a "page" = None \/
   (exists v, args_get a "page" = Some v /\ int v = None) ->
   get_books inherited a tbl = get_books inherited (("page", "1") :: a) tbl) /\
  (args_get a "per_page" = None \/
   (exists v, args_get a "per_page" = Some v /\ int v = None) ->
   get_books inherited a tbl = get_books inherited (("per_page", "5") :: a) tbl).
Proof.
  split; intros H.
  - assert (args_get_int a "page" 1 = 1) as Hp.
    { unfold args_get_int. destruct H as [->|[v [-> ->]]]; reflexivity. }
    unfold get_books, args_get_int, args_get_default in *. cbn [args_get].
    change ("page" =? "page")%string with true.
    change ("page" =? "per_page")%string with false.
    change ("page" =? "sort")%string with false.
    change ("page" =? "order")%string with false.
    cbn iota. change (int "1") with (Some 1). cbn iota. rewrite Hp. reflexivity.
  - assert (args_get_int a "per_page" 5 = 5) as Hk.
    { unfold args_get_int. destruct H as [->|[v [-> ->]]]; reflexivity. }
    unfold get_books, args_get_int, args_get_default in *. cbn [args_get].
    change ("per_page" =? "page")%string with false.
    change ("per_page" =? "per_page")%string with true.
    change ("per_page" =? "sort")%string with false.
    change ("per_page" =? "order")%string with false.
    cbn iota. change (int "5") with (Some 5). cbn iota. rewrite Hk. reflexivity.
Qed.

(** A page below 1 is served as the first page, and echoed as it was
    sent. *)
Lemma get_books_page_below_one (a : args) (tbl rows : table) (p k : Z) :
  args_get_int a "page" 1 = p -> p < 1 ->
  args_get_int a "per_page" 5 = k -> 1 <= k ->
  sorted_query inherited (args_get_default a "sort" "id")
               (args_get_default a "order" "asc") tbl = inr rows ->
  get_books inherited a tbl =
  Response (Listing p k (Z.of_nat (List.length tbl))
                    (map Book.to_dict (firstn (Z.to_nat k) rows))) 200.
Proof.
  intros Hp Hp1 Hk Hk1 Hq. rewrite (get_books_of_query inherited a tbl rows Hq), Hp, Hk.
  unfold paginate, items.
  assert ((p <? 1) = true) as -> by lia.
  assert ((k <? 1) = false) as -> by lia.
  replace ((1 - 1) * k) with 0 by lia. reflexivity.
Qed.

End ListRouteEdges.

Lemma get_books_unreadable_numbers_witness :
  get_books (fun _ => false) [("page", "two"); ("per_page", "")] (init_db noon) =
  Response (Listing 1 5 3 (map Book.to_dict (init_db noon))) 200.
Proof.
  rewrite (proj1 (get_books_unreadable_numbers (fun _ => false)
                    [("page", "two"); ("per_page", "")] (init_db noon))
                 (or_intror (ex_intro _ "two" (conj eq_refl eq_refl)))).
  reflexivity.
Defined.

Lemma get_books_page_below_one_witness :
  get_books (fun _ => false) [("page", "-3"); ("per_page", "2")] (init_db noon) =
  Response (Listing (-3) 2 3 (map Book.to_dict (firstn 2 (init_db noon)))) 200.
Proof.
  exact (get_books_page_below_one (fun _ => false) [("page", "-3"); ("per_page", "2")]
           (init_db noon) _ (-3) 2 eq_refl eq_refl eq_refl ltac:(lia) eq_refl).
Defined.

(** ** The sample data *)

(** [init_db()] never fails. On an empty table it inserts the three
    sample books under the ids 1, 2 and 3; on any other table it
    changes nothing; so a second run changes nothing, and the
    constraints of the table are kept. *)
Lemma init_db_on_once (t1 t2 t3 : datetime) (tbl : table) :
  exists tbl',
    init_db_on t1 t2 t3 tbl = inr tbl' /\
    (tbl = [] ->
     tbl' = [ Book.mk 1 (Some "Python Crash Course") (Some "Eric Matthes")
                      (Some 2019) (Some "978-1593279288") (Some t1);
              Book.mk 2 (Some "Flask Web Development") (Some "Miguel Grinberg")
                      (Some 2018) (Some "978-1491991732") (Some t2);
              Book.mk 3 (Some "Clean Code") (Some "Robert C. Martin")
                      (Some 2008) (Some "978-0132350884") (Some t3) ]) /\
    (tbl <> [] -> tbl' = tbl) /\
    (forall u1 u2 u3, init_db_on u1 u2 u3 tbl' = inr tbl') /\
    (constraints_hold tbl -> constraints_hold tbl').
Proof.
  destruct tbl as [|r tbl].
  - eexists. split; [reflexivity|]. split; [reflexivity|].
    split; [intros H; contradiction|]. split; [reflexivity|]. intros _.
    split; [|split; [|reflexivity]];
      cbn; repeat constructor; cbn; intuition discriminate.
  - exists (r :: tbl). split; [reflexivity|]. split; [discriminate|].
    split; [reflexivity|]. split; [reflexivity | auto].
Qed.

(** ** How many records there are *)

Lemma replace_row_length (i : Z) (book : Book.t) (tbl : table) :
  List.length (replace_row i book tbl) = List.length tbl.
Proof. unfold replace_row. apply length_map. Qed.

(** The [total] of every listing is the number of records, and the
    requests move it as they should: a create answered 201 adds one
    record, an update answered 200 adds and removes none, and a delete
    answered 200 removes one. *)
Lemma record_count_after_requests
    (now : datetime) (id : Z) (body : payload) (tbl tbl' : table) (env : envelope) :
  constraints_hold tbl ->
  (forall inherited a e s,
     get_books inherited a tbl = Response e s ->
     exists p k books, e = Listing p k (Z.of_nat (List.length tbl)) books) /\
  (create_book now body tbl = (Response env 201, tbl') ->
   List.length tbl' = S (List.length tbl)) /\
  (update_book id body tbl = (Response env 200, tbl') ->
   List.length tbl' = List.length tbl) /\
  (delete_book id tbl = (Response env 200, tbl') ->
   S (List.length tbl') = List.length tbl).
Proof.
  intros [Hids _]. split; [|split; [|split]].
  - intros inherited a e s H.
    destruct (get_books_outcome inherited a tbl) as [[x Hx]|[rows Hr]].
    + rewrite Hx in H. discriminate.
    + rewrite (get_books_of_query inherited a tbl rows Hr) in H.
      injection H as <- _. eauto.
  - intros H. destruct (create_book_created _ _ _ _ _ H)
      as [d [new_book [_ [_ [_ [_ [_ ->]]]]]]].
    rewrite length_app. cbn. lia.
  - intros H. unfold update_book in H.
    destruct (query_get tbl id) as [old|]; [|discriminate].
    destruct (get_json body) as [st|data]; [discriminate|].
    destruct (not_ data); [discriminate|]. destruct data as [d|]; [|discriminate].
    unfold update_commit in H. destruct (negb _ || _); [discriminate|].
    injection H as _ <-. apply length_map.
  - intros H. unfold delete_book in H.
    destruct (query_get tbl id) as [old|] eqn:Hold; [|discriminate].
    injection H as _ <-.
    destruct (query_get_some tbl id old Hold) as [_ Hid]. rewrite Hid.
    destruct (delete_commit_unique tbl id old Hids Hold)
      as [before [after [-> ->]]].
    rewrite !length_app. cbn. lia.
Qed.

Lemma record_count_after_requests_witness :
  List.length (snd (create_book noon (JsonObject dune) (init_db noon))) = 4%nat /\
  S (List.length (snd (delete_book 2 (init_db noon)))) = 3%nat.
Proof.
  split.
  - exact (proj1 (proj2 (record_count_after_requests noon 2 (JsonObject dune)
                           (init_db noon) _ _ (init_db_constraints noon))) eq_refl).
  - exact (proj2 (proj2 (proj2 (record_count_after_requests noon 2 (JsonObject dune)
                           (init_db noon) _ _ (init_db_constraints noon)))) eq_refl).
Defined.

(** ** The page of the index route *)

Section IndexPage.

Variable inherited : string -> bool.





End IndexPage.



(** * Properties of the school application *)

(** ** ORDER BY on any rows *)

Section SortBy.

Variable A : Type.
Variable le : A -> A -> bool.
Hypothesis le_total : forall a b, le a b = true \/ le b a = true.

Lemma insert_by_perm (x : A) (l : list A) : Permutation (x :: l) (insert_by le x l).
Proof.
  induction l as [|y l IH]; cbn; [apply Permutation_refl|].
  destruct (le x y); [apply Permutation_refl|].
  apply perm_trans with (y :: x :: l); [apply perm_swap | apply perm_skip, IH].
Qed.

Lemma sort_by_perm (l : list A) : Permutation l (sort_by le l).
Proof.
  unfold sort_by. induction l as [|x l IH]; cbn; [constructor|].
  apply perm_trans with (x :: fold_right (insert_by le) [] l);
    [apply perm_skip, IH | apply insert_by_perm].
Qed.

Lemma insert_by_sorted (x : A) (l : list A) :
  Sorted (fun a b => le a b = true) l ->
  Sorted (fun a b => le a b = true) (insert_by le x l).
Proof.
  induction 1 as [|y l Hs IH Hhd]; cbn.
  - repeat constructor.
  - destruct (le x y) eqn:E.
    + constructor; [constructor; assumption | constructor; exact E].
    + constructor; [exact IH|].
      assert (le y x = true) as Hyx
          by (destruct (le_total x y); [congruence | assumption]).
      destruct l as [|z l]; cbn; [constructor; exact Hyx|].
      destruct (le x z); constructor; [exact Hyx | inversion Hhd; assumption].
Qed.

Lemma sort_by_sorted (l : list A) : Sorted (fun a b => le a b = true) (sort_by le l).
Proof.
  unfold sort_by. induction l as [|x l IH]; cbn; [constructor|].
  apply insert_by_sorted, IH.
Qed.

End SortBy.

Lemma NoDup_map_filter {A B : Type} (f : A -> B) (p : A -> bool) (l : list A) :
  NoDup (map f l) -> NoDup (map f (filter p l)).
Proof.
  induction l as [|x l IH]; cbn; [constructor|].
  intros H. apply NoDup_cons_iff in H. destruct H as [Hnotin H].
  destruct (p x); cbn; [|exact (IH H)].
  constructor; [|exact (IH H)].
  intros Hin. apply Hnotin. apply in_map_iff in Hin.
  destruct Hin as [y [Hy Hin]]. apply filter_In in Hin.
  apply in_map_iff. exists y. tauto.
Qed.

(** ** Courses and teachers *)

Section SchoolRoutes.

Variable integer_affinity : string -> sqlvalue.

Lemma add_course_reply (m : method) (form : args) (d : School.db) :
  School.add_course m form d =
  (match m with
   | GET => School.Render School.AddCoursePage
   | POST => match args_get form "name" with
             | Some _ => School.Raise IntegrityError
             | None => School.Abort 400
             end
   end, [], d).
Proof.
  unfold School.add_course, form_getitem. destruct m; [reflexivity|].
  destruct (args_get form "name"); reflexivity.
Qed.

(** The form of [/add-course] never adds a course: the route builds
    the course without a teacher, and the commit refuses it. A POST
    ends in IntegrityError (HTTP 500) when the form has a name and in
    HTTP 400 when it has none; it never redirects, nothing is flashed,
    and however often the form is sent the tables stay as they are. *)
Lemma add_course_never_adds (forms : list args) (form : args) (d : School.db) :
  (School.add_course POST form d = (School.Raise IntegrityError, [], d) \/
   School.add_course POST form d = (School.Abort 400, [], d)) /\
  (args_get form "name" <> None ->
   School.add_course POST form d = (School.Raise IntegrityError, [], d)) /\
  School.run integer_affinity (map (School.AddCourse POST) forms) d = d.
Proof.
  split; [|split].
  - rewrite add_course_reply. destruct (args_get form "name"); auto.
  - intros H. rewrite add_course_reply. destruct (args_get form "name"); congruence.
  - induction forms as [|f forms IH]; [reflexivity|].
    cbn [map School.run School.serve]. rewrite add_course_reply. exact IH.
Qed.

Lemma serve_keeps_courses (r : School.request) (d : School.db) :
  School.courses (snd (School.serve integer_affinity r d)) = School.courses d /\
  School.teachers (snd (School.serve integer_affinity r d)) = School.teachers d.
Proof.
  destruct r as [| |m form|id m form|id|m form| |]; cbn [School.serve];
    try (split; reflexivity).
  - unfold School.add_student. destruct m; [split; reflexivity|].
    destruct (form_getitem form "name"); [split; reflexivity|].
    destruct (form_getitem form "email"); [split; reflexivity|].
    destruct (form_getitem form "course_id"); [split; reflexivity|].
    unfold School.insert_student. destruct (School.email_taken _ _ _); split; reflexivity.
  - unfold School.edit_student. destruct (School.get_student d id); [|split; reflexivity].
    destruct m; [split; reflexivity|].
    destruct (form_getitem form "name"); [split; reflexivity|].
    destruct (form_getitem form "email"); [split; reflexivity|].
    destruct (form_getitem form "course_id"); [split; reflexivity|].
    unfold School.update_student. destruct (School.email_taken _ _ _); split; reflexivity.
  - unfold School.delete_student. destruct (School.get_student d id); split; reflexivity.
  - rewrite add_course_reply. split; reflexivity.
Qed.

(** No request changes the courses or the teachers: whatever is sent
    to the eight routes, in any order, the two tables hold what they
    held before. *)
Lemma school_courses_are_fixed (rs : list School.request) (d : School.db) :
  School.courses (School.run integer_affinity rs d) = School.courses d /\
  School.teachers (School.run integer_affinity rs d) = School.teachers d.
Proof.
  revert d. induction rs as [|r rs IH]; intros d; [split; reflexivity|].
  cbn [School.run]. destruct (IH (snd (School.serve integer_affinity r d))) as [Hc Ht].
  destruct (serve_keeps_courses r d) as [Hc' Ht']. split; congruence.
Qed.

(** ** Students *)

Lemma next_key_fresh (ids : list Z) (i : Z) : In i ids -> i < School.next_key ids.
Proof.
  unfold School.next_key. induction ids as [|j ids IH]; cbn [fold_right In]; [intros []|].
  intros [->|H]; [lia | specialize (IH H); lia].
Qed.

Lemma email_taken_false (l : list School.Student.t) (i : Z) (email : string) :
  School.email_taken l i email = false ->
  forall s, In s l -> School.Student.id s <> i -> School.Student.email s <> email.
Proof.
  unfold School.email_taken. intros H s Hs Hid Hemail.
  assert (existsb (fun s0 => negb (School.Student.id s0 =? i) &&
                             (School.Student.email s0 =? email)%string) l = true) as E.
  { apply existsb_exists. exists s. split; [exact Hs|].
    rewrite Hemail, String.eqb_refl.
    assert ((School.Student.id s =? i) = false) as -> by lia. reflexivity. }
  congruence.
Qed.

Lemma update_emails (l : list School.Student.t) (i : Z) (student : School.Student.t) :
  NoDup (map School.Student.id l) -> NoDup (map School.Student.email l) ->
  School.email_taken l i (School.Student.email student) = false ->
  NoDup (map School.Student.email
             (map (fun s => if School.Student.id s =? i then student else s) l)).
Proof.
  intros Hids Hemails Hfree. pose proof (email_taken_false l i _ Hfree) as Hother.
  clear Hfree. induction l as [|r l IH]; [constructor|].
  cbn [map] in *. apply NoDup_cons_iff in Hids. destruct Hids as [Hni Hids].
  apply NoDup_cons_iff in Hemails. destruct Hemails as [Hne Hemails].
  assert (forall s, In s l -> School.Student.id s <> i ->
                    School.Student.email s <> School.Student.email student) as Hother'
      by (intros s Hs; apply Hother; right; exact Hs).
  specialize (IH Hids Hemails Hother').
  constructor; [|exact IH].
  intros Hin. rewrite map_map in Hin. apply in_map_iff in Hin.
  destruct Hin as [s [Hs Hin]].
  destruct (Z.eqb_spec (School.Student.id r) i) as [Er|Er];
    destruct (Z.eqb_spec (School.Student.id s) i) as [Es|Es].
  - apply Hni. rewrite Er, <- Es. apply in_map. exact Hin.
  - exact (Hother' s Hin Es Hs).
  - apply (Hother r (or_introl eq_refl) Er). symmetry. exact Hs.
  - apply Hne. rewrite <- Hs. apply in_map. exact Hin.
Qed.

Lemma update_ids (l : list School.Student.t) (i : Z) (student : School.Student.t) :
  School.Student.id student = i ->
  map School.Student.id (map (fun s => if School.Student.id s =? i then student else s) l)
  = map School.Student.id l.
Proof.
  intros Hid. rewrite map_map. apply map_ext. intros s.
  destruct (Z.eqb_spec (School.Student.id s) i); congruence.
Qed.

Lemma get_student_some (d : School.db) (i : Z) (s : School.Student.t) :
  School.get_student d i = Some s -> In s (School.students d) /\ School.Student.id s = i.
Proof.
  unfold School.get_student. intros H. apply find_some in H.
  destruct H as [Hin Hid]. split; [exact Hin | lia].
Qed.

Lemma serve_keeps_students_consistent (r : School.request) (d : School.db) :
  students_consistent d ->
  students_consistent (snd (School.serve integer_affinity r d)).
Proof.
  intros [Hids Hemails].
  destruct r as [| |m form|id m form|id|m form| |]; cbn [School.serve];
    try (split; assumption).
  - unfold School.add_student. destruct m; [split; assumption|].
    destruct (form_getitem form "name") as [?|name]; [split; assumption|].
    destruct (form_getitem form "email") as [?|email]; [split; assumption|].
    destruct (form_getitem form "course_id") as [?|course]; [split; assumption|].
    unfold School.insert_student.
    destruct (School.email_taken _ _ email) eqn:E; [split; assumption|].
    unfold students_consistent. cbn [snd School.students]. rewrite !map_app. cbn [map].
    split; (apply NoDup_app; [assumption | repeat constructor; intros [] |]).
    + intros i Hi [<-|[]]. pose proof (next_key_fresh _ _ Hi). cbn in *. lia.
    + intros e He [<-|[]]. apply in_map_iff in He. destruct He as [s [Hs Hin]].
      refine (email_taken_false _ _ _ E s Hin _ Hs).
      pose proof (next_key_fresh _ _ (in_map School.Student.id _ _ Hin)). lia.
  - unfold School.edit_student.
    destruct (School.get_student d id) as [student|] eqn:Hget; [|split; assumption].
    destruct m; [split; assumption|].
    destruct (form_getitem form "name") as [?|name]; [split; assumption|].
    destruct (form_getitem form "email") as [?|email]; [split; assumption|].
    destruct (form_getitem form "course_id") as [?|course]; [split; assumption|].
    unfold School.update_student.
    destruct (School.email_taken _ _ _) eqn:E; [split; assumption|].
    unfold students_consistent. cbn [snd School.students].
    destruct (get_student_some d id student Hget) as [_ Hid]. split.
    + rewrite update_ids by exact Hid. exact Hids.
    + apply update_emails; assumption.
  - unfold School.delete_student.
    destruct (School.get_student d id) as [student|]; [|split; assumption].
    unfold students_consistent. cbn [snd School.students School.remove_student].
    split; apply NoDup_map_filter; assumption.
  - rewrite add_course_reply. split; assumption.
Qed.

(** Whatever requests are served, no two students share an id and no
    two students share an email, provided that was so before. *)
Lemma school_students_stay_consistent (rs : list School.request) (d : School.db) :
  students_consistent d ->
  students_consistent (School.run integer_affinity rs d).
Proof.
  revert d. induction rs as [|r rs IH]; intros d H; [exact H|].
  cbn [School.run]. apply IH, serve_keeps_students_consistent, H.
Qed.

(** A route flashes a message exactly when it has committed a change
    and redirects: every other reply (a page, a 404 for an unknown id,
    a 400 for a form without one of its fields, an IntegrityError for
    an email that another student has) flashes nothing and leaves the
    three tables as they were. *)
Lemma school_flash_means_commit (r : School.request) (d : School.db) :
  (redirected (fst (fst (School.serve integer_affinity r d))) = true /\
   exists message category,
     snd (fst (School.serve integer_affinity r d)) = [(message, category)]) \/
  (redirected (fst (fst (School.serve integer_affinity r d))) = false /\
   snd (fst (School.serve integer_affinity r d)) = [] /\
   snd (School.serve integer_affinity r d) = d).
Proof.
  destruct r as [| |m form|id m form|id|m form| |]; cbn [School.serve];
    try (right; repeat split; reflexivity).
  - unfold School.add_student. destruct m; [right; repeat split; reflexivity|].
    destruct (form_getitem form "name"); [right; repeat split; reflexivity|].
    destruct (form_getitem form "email"); [right; repeat split; reflexivity|].
    destruct (form_getitem form "course_id"); [right; repeat split; reflexivity|].
    destruct (School.insert_student _ _ _ _); [right; repeat split; reflexivity|].
    left. split; [reflexivity | do 2 eexists; reflexivity].
  - unfold School.edit_student.
    destruct (School.get_student d id); [|right; repeat split; reflexivity].
    destruct m; [right; repeat split; reflexivity|].
    destruct (form_getitem form "name"); [right; repeat split; reflexivity|].
    destruct (form_getitem form "email"); [right; repeat split; reflexivity|].
    destruct (form_getitem form "course_id"); [right; repeat split; reflexivity|].
    destruct (School.update_student _ _ _); [right; repeat split; reflexivity|].
    left. split; [reflexivity | do 2 eexists; reflexivity].
  - unfold School.delete_student.
    destruct (School.get_student d id); [|right; repeat split; reflexivity].
    left. split; [reflexivity | do 2 eexists; reflexivity].
  - rewrite add_course_reply. destruct m; [right; repeat split; reflexivity|].
    destruct (args_get form "name"); right; repeat split; reflexivity.
Qed.

End SchoolRoutes.

Lemma school_students_stay_consistent_witness :
  students_consistent
    (School.run reads_decimal
       [School.AddStudent POST asha_form; School.AddStudent POST ben_form;
        School.AddStudent POST asha_form; School.DeleteStudent 1]
       empty_school) /\
  School.students
    (School.run reads_decimal
       [School.AddStudent POST asha_form; School.AddStudent POST ben_form;
        School.AddStudent POST asha_form; School.DeleteStudent 1]
       empty_school) =
  [School.Student.mk 2 "ben" "ben@school.com" (SqlInteger 2)].
Proof.
  split; [|reflexivity].
  apply (school_students_stay_consistent reads_decimal).
  split; constructor.
Defined.

(** ** The three queries of the demo *)

Lemma map_filter_comm {A B : Type} (f : A -> B) (p : B -> bool) (l : list A) :
  map f (filter (fun x => p (f x)) l) = filter p (map f l).
Proof.
  induction l as [|x l IH]; cbn; [reflexivity|].
  destruct (p (f x)); cbn; now rewrite IH.
Qed.

Lemma Sorted_map {A B : Type} (f : A -> B) (R : B -> B -> Prop) (l : list A) :
  Sorted (fun x y => R (f x) (f y)) l -> Sorted R (map f l).
Proof.
  induction 1 as [|x l Hs IH Hhd]; cbn; constructor; [exact IH|].
  destruct Hhd; cbn; constructor. assumption.
Qed.

(** [/queries-demo] answers with three lists of student names: under
    "filter" the names that contain an [a] or an [A], in storage order;
    under "order_by" all names, each as often as it occurs, in
    ascending order; under "limit" the names of the first two students,
    or of all when there are fewer. It flashes nothing and changes
    nothing. *)
Lemma queries_demo_lists (d : School.db) :
  exists f o l,
    School.queries_demo d = (School.Json (School.mkdemo f o l), [], d) /\
    f = filter (fun n => infix "a" (lower n))
               (map School.Student.name (School.students d)) /\
    Permutation (map School.Student.name (School.students d)) o /\
    Sorted (fun a b => String.leb a b = true) o /\
    l = firstn 2 (map School.Student.name (School.students d)) /\
    (List.length l <= 2)%nat.
Proof.
  eexists. eexists. eexists. split; [reflexivity|].
  split; [|split; [|split; [|split]]].
  - rewrite <- (map_filter_comm School.Student.name (fun n => infix "a" (lower n))).
    f_equal. apply filter_ext. intros s. unfold sqlite_like.
    change (lower "%a%") with ("%" ++ "a" ++ "%")%string.
    apply like_infix. reflexivity.
  - apply Permutation_map, sort_by_perm.
  - apply Sorted_map, sort_by_sorted. intros a b. apply String.leb_total.
  - symmetry. apply firstn_map.
  - rewrite length_map. apply firstn_le_length.
Qed.

(** ** [init_db()] of the school *)

(** [init_db()] never fails and leaves the students alone. It adds the
    two teachers exactly when there is no teacher and the three
    courses exactly when there is no course; a second run changes
    nothing. *)
Lemma school_init_db_once (d : School.db) :
  exists d',
    School.init_db d = (None, d') /\
    School.init_db d' = (None, d') /\
    School.students d' = School.students d /\
    (School.teachers d <> [] -> School.teachers d' = School.teachers d) /\
    (School.courses d <> [] -> School.courses d' = School.courses d) /\
    (School.teachers d = [] ->
     School.teachers d' = [ School.Teacher.mk 1 "Mr. Sharma" "sharma@school.com";
                            School.Teacher.mk 2 "Ms. Patil" "patil@school.com" ]) /\
    (School.courses d = [] ->
     School.courses d' =
     [ School.Course.mk 1 "Python Basics" (Some "Learn Python fundamentals") (Some 1);
       School.Course.mk 2 "Web Development" (Some "HTML, CSS, Flask") (Some 2);
       School.Course.mk 3 "Data Science" (Some "Data analysis with Python") (Some 1) ]).
Proof.
  destruct d as [ts cs ss].
  destruct ts as [|t ts], cs as [|c cs]; eexists;
    (split; [reflexivity|]); (split; [reflexivity|]); (split; [reflexivity|]);
    repeat split; try reflexivity; intros H; try contradiction; discriminate.
Qed.

(** ** UPDATE of one row, on any rows *)

Section ReplaceRow.

Variable A : Type.
Variable key : A -> Z.
Variable i : Z.
Variable new : A.
Hypothesis key_new : key new = i.

Lemma find_replaced (l : list A) (old : A) :
  find (fun r => key r =? i) l = Some old ->
  find (fun r => key r =? i) (map (fun r => if key r =? i then new else r) l) = Some new.
Proof.
  induction l as [|r l IH]; cbn [find map]; [discriminate|].
  destruct (key r =? i) eqn:E.
  - intros _. rewrite key_new, Z.eqb_refl. reflexivity.
  - rewrite E. exact IH.
Qed.

Lemma in_replaced (l : list A) (r : A) :
  key r <> i ->
  (In r (map (fun r => if key r =? i then new else r) l) <-> In r l).
Proof.
  intros Hr. rewrite in_map_iff. split.
  - intros [x [Hx Hin]]. destruct (key x =? i); [congruence|]. subst x. exact Hin.
  - intros Hin. exists r. split; [|exact Hin].
    assert ((key r =? i) = false) as -> by lia. reflexivity.
Qed.

Lemma keys_replaced (l : list A) :
  map key (map (fun r => if key r =? i then new else r) l) = map key l.
Proof.
  rewrite map_map. apply map_ext. intros r.
  destruct (Z.eqb_spec (key r) i); congruence.
Qed.

End ReplaceRow.

(** ** The life of a student *)

Section StudentLife.

Variable integer_affinity : string -> sqlvalue.

Lemma get_student_new (d : School.db) (s : School.Student.t) :
  School.Student.id s = School.next_key (map School.Student.id (School.students d)) ->
  School.get_student (School.mkdb (School.teachers d) (School.courses d)
                                  (School.students d ++ [s]))
                     (School.Student.id s) = Some s /\
  School.remove_student (School.mkdb (School.teachers d) (School.courses d)
                                     (School.students d ++ [s]))
                        (School.Student.id s) = d.
Proof.
  intros Hid.
  assert (forall r, In r (School.students d) ->
                    (School.Student.id r =? School.Student.id s) = false) as Hold.
  { intros r Hr.
    pose proof (next_key_fresh _ _ (in_map School.Student.id _ _ Hr)). lia. }
  destruct d as [ts cs ss]. cbn [School.students School.teachers School.courses] in *.
  unfold School.get_student, School.remove_student.
  cbn [School.students School.teachers School.courses]. split.
  - clear Hid. induction ss as [|r ss IH]; cbn.
    + rewrite Z.eqb_refl. reflexivity.
    + rewrite (Hold r (or_introl eq_refl)). apply IH.
      intros x Hx. apply Hold. right. exact Hx.
  - f_equal. rewrite filter_app. cbn [filter]. rewrite Z.eqb_refl. cbn [negb].
    rewrite app_nil_r. clear Hid. induction ss as [|r ss IH]; cbn; [reflexivity|].
    rewrite (Hold r (or_introl eq_refl)). cbn [negb]. f_equal.
    apply IH. intros x Hx. apply Hold. right. exact Hx.
Qed.

(** A student that was added can be taken out again: after a POST to
    [/add] that redirected, the student is in the table under a new
    id with the name and the email of the form; deleting that id gives
    back the tables as they were before, and then the id is unknown to
    [/edit] and [/delete] (HTTP 404). *)
Lemma student_added_then_deleted
    (form : args) (d d' : School.db) (location : string) (flashes : list School.flash) :
  School.add_student integer_affinity POST form d =
    (School.Redirect location, flashes, d') ->
  exists s,
    args_get form "name" = Some (School.Student.name s) /\
    args_get form "email" = Some (School.Student.email s) /\
    School.get_student d (School.Student.id s) = None /\
    School.get_student d' (School.Student.id s) = Some s /\
    School.delete_student (School.Student.id s) d' =
      (School.Redirect "/", [("Student deleted!", "danger")], d) /\
    (forall m form2,
       School.edit_student integer_affinity (School.Student.id s) m form2 d =
         (School.Abort 404, [], d)) /\
    School.delete_student (School.Student.id s) d = (School.Abort 404, [], d).
Proof.
  unfold School.add_student, form_getitem.
  destruct (args_get form "name") as [name|]; [|discriminate].
  destruct (args_get form "email") as [email|]; [|discriminate].
  destruct (args_get form "course_id") as [course|]; [|discriminate].
  unfold School.insert_student. destruct (School.email_taken _ _ email); [discriminate|].
  intros [= _ _ <-].
  set (s := School.Student.mk
              (School.next_key (map School.Student.id (School.students d)))
              name email (integer_affinity course)).
  destruct (get_student_new d s eq_refl) as [Hget Hrem].
  assert (School.get_student d (School.Student.id s) = None) as Hnone.
  { unfold School.get_student.
    destruct (find _ (School.students d)) as [r|] eqn:E; [|reflexivity].
    apply find_some in E. destruct E as [Hr Hid].
    pose proof (next_key_fresh _ _ (in_map School.Student.id _ _ Hr)).
    unfold s in Hid. cbn [School.Student.id] in Hid. lia. }
  exists s. split; [reflexivity|]. split; [reflexivity|]. split; [exact Hnone|].
  split; [exact Hget|]. split; [|split].
  - unfold School.delete_student. rewrite Hget, Hrem. reflexivity.
  - intros m form2. unfold School.edit_student. rewrite Hnone. reflexivity.
  - unfold School.delete_student. rewrite Hnone. reflexivity.
Qed.

(** [/edit/<id>] for a student that exists and a form with its three
    fields. A GET renders the form with the student as stored and
    changes nothing. A POST with an email that another student has
    ends in IntegrityError and changes nothing. Any other POST
    redirects with one flashed message; the student then has the name,
    the email and the course of the form under the id it had, and the
    other students are as they were. *)
Lemma edit_student_updates
    (id : Z) (form : args) (d : School.db) (old : School.Student.t)
    (name email course : string) :
  School.get_student d id = Some old ->
  args_get form "name" = Some name ->
  args_get form "email" = Some email ->
  args_get form "course_id" = Some course ->
  School.edit_student integer_affinity id GET form d =
    (School.Render (School.EditPage old (School.courses d)), [], d) /\
  ((exists s, In s (School.students d) /\ School.Student.id s <> id /\
              School.Student.email s = email) ->
   School.edit_student integer_affinity id POST form d =
     (School.Raise IntegrityError, [], d)) /\
  ((forall s, In s (School.students d) -> School.Student.id s <> id ->
              School.Student.email s <> email) ->
   exists d',
     School.edit_student integer_affinity id POST form d =
       (School.Redirect "/", [("Student updated!", "success")], d') /\
     School.get_student d' id =
       Some (School.Student.mk id name email (integer_affinity course)) /\
     map School.Student.id (School.students d') =
       map School.Student.id (School.students d) /\
     (forall s, School.Student.id s <> id ->
                (In s (School.students d') <-> In s (School.students d))) /\
     School.courses d' = School.courses d /\
     School.teachers d' = School.teachers d).
Proof.
  intros Hget Hname Hemail Hcourse.
  assert (School.Student.id old = id) as Hid.
  { unfold School.get_student in Hget. apply find_some in Hget. lia. }
  unfold School.edit_student, form_getitem, School.update_student.
  rewrite Hget, Hname, Hemail, Hcourse. cbn [School.Student.email].
  split; [reflexivity|]. split.
  - intros [s [Hin [Hs He]]].
    assert (School.email_taken (School.students d) id email = true) as ->;
      [|reflexivity].
    unfold School.email_taken. apply existsb_exists. exists s. split; [exact Hin|].
    rewrite He, String.eqb_refl.
    assert ((School.Student.id s =? id) = false) as -> by lia. reflexivity.
  - intros Hfree.
    assert (School.email_taken (School.students d) id email = false) as ->.
    { unfold School.email_taken.
      destruct (existsb _ (School.students d)) eqn:E; [|reflexivity].
      apply existsb_exists in E. destruct E as [s [Hin Hs]].
      apply andb_prop in Hs. destruct Hs as [Hs He].
      apply negb_true_iff, Z.eqb_neq in Hs. apply String.eqb_eq in He.
      destruct (Hfree s Hin Hs He). }
    eexists. split; [reflexivity|]. cbn [School.students School.courses School.teachers].
    rewrite Hid. unfold School.get_student. cbn [School.students].
    split; [|split; [|split; [|split; reflexivity]]].
    + apply find_replaced with (old := old); [reflexivity | exact Hget].
    + apply keys_replaced. reflexivity.
    + intros s Hs. apply in_replaced; [reflexivity | exact Hs].
Qed.

End StudentLife.

Lemma edit_student_updates_witness :
  School.get_student
    (School.run reads_decimal
       [School.AddStudent POST asha_form; School.EditStudent 1 POST ben_form]
       empty_school) 1 =
  Some (School.Student.mk 1 "ben" "ben@school.com" (SqlInteger 2)).
Proof.
  destruct (proj2 (proj2
              (edit_student_updates reads_decimal 1 ben_form
                 (School.run reads_decimal [School.AddStudent POST asha_form] empty_school)
                 _ "ben" "ben@school.com" "2" eq_refl eq_refl eq_refl eq_refl)))
    as [d' [Hedit [Hget _]]].
  - intros s [<-|[]] Hs. contradiction Hs. reflexivity.
  - change (School.get_student
              (snd (School.edit_student reads_decimal 1 POST ben_form
                      (School.run reads_decimal [School.AddStudent POST asha_form]
                                  empty_school))) 1 =
            Some (School.Student.mk 1 "ben" "ben@school.com" (SqlInteger 2))).
    rewrite Hedit. exact Hget.
Defined.

Lemma student_added_then_deleted_witness :
  exists s,
    School.get_student
      (snd (School.add_student reads_decimal POST asha_form empty_school))
      (School.Student.id s) = Some s /\
    School.delete_student (School.Student.id s)
      (snd (School.add_student reads_decimal POST asha_form empty_school)) =
      (School.Redirect "/", [("Student deleted!", "danger")], empty_school).
Proof.
  destruct (student_added_then_deleted reads_decimal asha_form empty_school
              _ _ _ eq_refl) as [s [_ [_ [_ [Hget [Hdel _]]]]]].
  exists s. split; [exact Hget | exact Hdel].
Defined.

(** * Properties of the inventory application *)

Section InventoryRoutes.

Variable float : Type.
Variable float_of_string : string -> option float.
Variable is_nan : float -> bool.
Variable sum_value : list (option Z * float) -> option float.
Variable is_zero : float -> bool.
Variable round2 : float -> float.

Local Abbreviation Product := (Inventory.Product float).
Local Abbreviation add_product := (Inventory.add_product float float_of_string is_nan).
Local Abbreviation edit_product := (Inventory.edit_product float float_of_string is_nan).
Local Abbreviation delete_product := (Inventory.delete_product float).
Local Abbreviation get_product := (Inventory.get_product float).
Local Abbreviation index := (Inventory.index float sum_value is_zero round2).

Lemma read_form_inr (form : args) (n : string) (q : Z) (p : float) :
  Inventory.read_form float float_of_string form = inr (n, q, p) <->
  args_get form "name" = Some n /\
  (exists qs, args_get form "quantity" = Some qs /\ int qs = Some q) /\
  (exists ps, args_get form "price" = Some ps /\ float_of_string ps = Some p).
Proof.
  unfold Inventory.read_form, form_getitem. split.
  - destruct (args_get form "name") as [n'|]; [|discriminate].
    destruct (args_get form "quantity") as [qs|]; [|discriminate].
    destruct (int qs) as [q'|] eqn:Eq; [|discriminate].
    destruct (args_get form "price") as [ps|]; [|discriminate].
    destruct (float_of_string ps) as [p'|] eqn:Ep; [|discriminate].
    intros [= -> -> ->]. eauto 10.
  - intros [-> [[qs [-> ->]] [ps [-> ->]]]]. reflexivity.
Qed.

Lemma get_product_fresh (tbl : list Product) (b : Product) :
  In b tbl -> Inventory.id float b < 1 + fold_right Z.max 0 (map (Inventory.id float) tbl).
Proof.
  induction tbl as [|r tbl IH]; cbn [map fold_right In]; [intros []|].
  intros [->|H]; [lia | specialize (IH H); lia].
Qed.

(** A POST to [/add] stores a product exactly when the form has a
    name, a quantity that reads as an integer and a price that reads
    as a number (not NaN); no other condition is put on the three, so
    an empty name or a negative quantity is stored as well. The
    product gets an id that no product has, and the others stay. Every
    other reply (HTTP 400 for a missing field, ValueError or
    IntegrityError otherwise) leaves the table as it was. *)
Lemma add_product_stores (m : method) (form : args) (tbl : list Product) :
  (m = POST /\
   exists n q p,
     Inventory.read_form float float_of_string form = inr (n, q, p) /\
     is_nan p = false /\
     get_product tbl (1 + fold_right Z.max 0 (map (Inventory.id float) tbl)) = None /\
     add_product m form tbl =
       (Inventory.Redirect float "/",
        tbl ++ [Inventory.mkProduct float
                  (1 + fold_right Z.max 0 (map (Inventory.id float) tbl))
                  n (Some q) p])) \/
  ((forall location, fst (add_product m form tbl) <> Inventory.Redirect float location) /\
   snd (add_product m form tbl) = tbl /\
   (m = POST ->
    forall n q p,
      Inventory.read_form float float_of_string form = inr (n, q, p) ->
      is_nan p = true)).
Proof.
  unfold Inventory.add_product. destruct m.
  - right. split; [intros l; cbn; discriminate|]. split; [reflexivity | discriminate].
  - destruct (Inventory.read_form float float_of_string form) as [r|[[n q] p]] eqn:E.
    + right. split.
      * intros l. cbn. unfold Inventory.read_form in E.
        destruct (form_getitem form "name"); [injection E as <-; discriminate|].
        destruct (form_getitem form "quantity"); [injection E as <-; discriminate|].
        destruct (int _); [|injection E as <-; discriminate].
        destruct (form_getitem form "price"); [injection E as <-; discriminate|].
        destruct (float_of_string _); [discriminate|injection E as <-; discriminate].
      * split; [reflexivity | discriminate].
    + unfold Inventory.insert_product. destruct (is_nan p) eqn:Hnan.
      * right. split; [intros l; cbn; discriminate|]. split; [reflexivity|].
        intros _ n' q' p' [= <- <- <-]. exact Hnan.
      * left. split; [reflexivity|]. exists n, q, p.
        split; [reflexivity|]. split; [exact Hnan|]. split; [|reflexivity].
        unfold Inventory.get_product.
        destruct (find _ tbl) as [b|] eqn:F; [|reflexivity].
        apply find_some in F. destruct F as [Hb Hid].
        pose proof (get_product_fresh tbl b Hb). lia.
Qed.

(** [/edit/<id>] and [/delete/<id>] answer HTTP 404 for an id that no
    product has, whatever the method and the form, and change nothing.
    A delete of a known id redirects and leaves exactly the products
    of other ids, after which the id is unknown to both routes. *)
Lemma product_delete_contract (i : Z) (tbl : list Product) :
  (get_product tbl i = None ->
   delete_product i tbl = (Inventory.Abort float 404, tbl) /\
   forall m form, edit_product i m form tbl = (Inventory.Abort float 404, tbl)) /\
  (forall product, get_product tbl i = Some product ->
   exists tbl',
     delete_product i tbl = (Inventory.Redirect float "/", tbl') /\
     (forall r, In r tbl' <-> In r tbl /\ Inventory.id float r <> i) /\
     delete_product i tbl' = (Inventory.Abort float 404, tbl') /\
     forall m form, edit_product i m form tbl' = (Inventory.Abort float 404, tbl')).
Proof.
  split.
  - intros H. unfold Inventory.delete_product, Inventory.edit_product. rewrite H.
    split; reflexivity.
  - intros product H.
    assert (Inventory.id float product = i) as Hid.
    { unfold Inventory.get_product in H. apply find_some in H. lia. }
    eexists. split; [unfold Inventory.delete_product; rewrite H; reflexivity|].
    rewrite Hid.
    assert (get_product (filter (fun r => negb (Inventory.id float r =? i)) tbl) i = None)
      as Hgone.
    { unfold Inventory.get_product.
      destruct (find _ (filter _ tbl)) as [b|] eqn:F; [|reflexivity].
      apply find_some in F. destruct F as [Hb Hbi]. apply filter_In in Hb.
      destruct Hb as [_ Hb]. rewrite Hbi in Hb. discriminate. }
    split; [|split].
    + intros r. rewrite filter_In, negb_true_iff, Z.eqb_neq. reflexivity.
    + unfold Inventory.delete_product. rewrite Hgone. reflexivity.
    + intros m form. unfold Inventory.edit_product. rewrite Hgone. reflexivity.
Qed.

(** [/edit/<id>] for a product that exists and a form whose quantity
    reads as the integer [q] and whose price reads as the number [p].
    A GET renders the form with the product as stored and changes
    nothing. A POST with NaN as price ends in IntegrityError and
    changes nothing. Any other POST redirects to the index; the
    product then has the name, the quantity and the price of the form
    under the id it had, and the other products are as they were. *)
Lemma edit_product_updates
    (i : Z) (form : args) (tbl : list Product) (old : Product)
    (n qs ps : string) (q : Z) (p : float) :
  get_product tbl i = Some old ->
  args_get form "name" = Some n ->
  args_get form "quantity" = Some qs -> int qs = Some q ->
  args_get form "price" = Some ps -> float_of_string ps = Some p ->
  edit_product i GET form tbl = (Inventory.Render float (Inventory.EditPage float old), tbl) /\
  (is_nan p = true ->
   edit_product i POST form tbl = (Inventory.Raise float IntegrityError, tbl)) /\
  (is_nan p = false ->
   exists tbl',
     edit_product i POST form tbl = (Inventory.Redirect float "/", tbl') /\
     get_product tbl' i = Some (Inventory.mkProduct float i n (Some q) p) /\
     map (Inventory.id float) tbl' = map (Inventory.id float) tbl /\
     (forall r, Inventory.id float r <> i -> (In r tbl' <-> In r tbl))).
Proof.
  intros Hget Hn Hqs Hq Hps Hp.
  assert (Inventory.id float old = i) as Hid.
  { unfold Inventory.get_product in Hget. apply find_some in Hget. lia. }
  assert (Inventory.read_form float float_of_string form = inr (n, q, p)) as Hread
      by (apply read_form_inr; eauto 10).
  unfold Inventory.edit_product, Inventory.update_product.
  rewrite Hget, Hread, Hid. cbn [Inventory.price].
  split; [reflexivity|]. split; [intros ->; reflexivity|].
  intros ->. eexists. split; [reflexivity|]. unfold Inventory.get_product.
  split; [|split].
  - apply find_replaced with (old := old); [reflexivity | exact Hget].
  - apply keys_replaced. reflexivity.
  - intros r Hr. apply in_replaced; [reflexivity | exact Hr].
Qed.

(** The dashboard of the index page counts the whole inventory: the
    product count and the total value are the same whatever is
    searched for, the count being the number of products. The list
    holds all products when [search] is missing or empty, and else
    those whose name matches; when the text searched for has no [%]
    and no [_], those whose name contains it, letter case aside. *)
Lemma index_dashboard (a : args) (tbl : list Product) :
  dashboard (index a tbl) = dashboard (index [] tbl) /\
  option_map fst (dashboard (index a tbl)) = Some (Z.of_nat (List.length tbl)) /\
  (truthy (args_get a "search") = false -> listed_products (index a tbl) = tbl) /\
  (forall t, args_get a "search" = Some t -> t <> "" -> plain t = true ->
     listed_products (index a tbl) =
     filter (fun p => infix (lower t) (lower (Inventory.name float p))) tbl).
Proof.
  unfold Inventory.index. cbn [dashboard listed_products option_map fst].
  split; [reflexivity|]. split; [reflexivity|]. split.
  - destruct (args_get a "search") as [t|]; [|reflexivity].
    intros ->. reflexivity.
  - intros t -> Hne Hplain.
    assert (truthy (Some t) = true) as -> by (apply truthy_some; eauto).
    apply filter_ext. intros p.
    rewrite (ilike_plain t _ Hplain). reflexivity.
Qed.

End InventoryRoutes.

Lemma add_product_stores_witness :
  Inventory.add_product Z int (fun _ => false) POST pens_form [] =
  (Inventory.Redirect Z "/", [Inventory.mkProduct Z 1 "Pens" (Some 12) 150]).
Proof.
  destruct (add_product_stores Z int (fun _ => false) POST pens_form [])
    as [[_ [n [q [p [Hread [_ [_ Hadd]]]]]]]|[Hno _]].
  - injection Hread as <- <- <-. exact Hadd.
  - exfalso. exact (Hno "/" eq_refl).
Defined.

Lemma edit_product_updates_witness :
  Inventory.get_product Z
    (snd (Inventory.edit_product Z int (fun _ => false) 1 POST pens_form
            [Inventory.mkProduct Z 1 "Pencils" None 90])) 1 =
  Some (Inventory.mkProduct Z 1 "Pens" (Some 12) 150).
Proof.
  destruct (proj2 (proj2
              (edit_product_updates Z int (fun _ => false) 1 pens_form
                 [Inventory.mkProduct Z 1 "Pencils" None 90] _
                 "Pens" "12" "150" 12 150
                 eq_refl eq_refl eq_refl eq_refl eq_refl eq_refl)) eq_refl)
    as [tbl' [Hedit [Hget _]]].
  rewrite Hedit. exact Hget.
Defined.

Lemma index_dashboard_witness :
  listed_products
    (Inventory.index Z cents_sum (Z.eqb 0) (fun x => x) [("search", "pen")]
       [Inventory.mkProduct Z 1 "Pens" (Some 12) 150;
        Inventory.mkProduct Z 2 "Ink" None 900]) =
  [Inventory.mkProduct Z 1 "Pens" (Some 12) 150] /\
  dashboard
    (Inventory.index Z cents_sum (Z.eqb 0) (fun x => x) [("search", "pen")]
       [Inventory.mkProduct Z 1 "Pens" (Some 12) 150;
        Inventory.mkProduct Z 2 "Ink" None 900]) =
  Some (2, Inventory.Float Z 1800).
Proof.
  destruct (index_dashboard Z cents_sum (Z.eqb 0) (fun x => x) [("search", "pen")]
              [Inventory.mkProduct Z 1 "Pens" (Some 12) 150;
               Inventory.mkProduct Z 2 "Ink" None 900])
    as [Hsame [_ [_ Hfilter]]].
  split.
  - rewrite (Hfilter "pen" eq_refl ltac:(discriminate) eq_refl). reflexivity.
  - rewrite Hsame. reflexivity.
Defined.
